(** * Extension management of the Azure CLI: install, update, rollback

    A shallow embedding of
    [azure/cli/command_modules/extension/custom.py] and a verification of
    its install/update pipeline.

    - Python strings are [string]; file contents are [list byte].
    - The pure library functions the module calls ([str.endswith],
      [os.path.basename], [urlparse], [WHEEL_INFO_RE], [hashlib.sha256])
      are embedded as functions that compute.
    - The world is the extension store (one directory tree per name), the
      temporary directories, the other files, and the record of the calls
      that leave the process.
    - The callees that reach outside the program (index, server, zip
      reader, metadata reader, installer subprocess) are the fields of a
      record [Collab]; every theorem holds for all of their behaviours.
    - A Python function with effects is a function
      [World -> (exn + A) * World]: an exception keeps the changes made
      before it was raised.
    - A file-system call fails exactly when the precondition of the library
      function is violated (missing source, existing destination, ...);
      faults of the environment (full disk, permissions) are out of scope. *)

From Stdlib Require Import ZArith Lia List Ascii String Bool.
From Stdlib.Strings Require Import Byte.
From stdpp Require Import base option gmap strings list fin_maps pretty.

Import ListNotations.
Local Open Scope string_scope.
Local Open Scope Z_scope.

(* ===================================================================== *)
(** ** Exceptions *)
(* ===================================================================== *)

(** The exception classes that the module raises, catches or lets through.
    [CLIError] is the user-facing error of the CLI; the error kinds of the
    design are [CLIError]s (and one [ValueError]) told apart by their
    message, see [Module Kind]. *)
Inductive exn : Type :=
| CLIError (msg : string)
| ValueError (msg : string)
| AttributeError (msg : string)
| AssertionError (msg : string)
| BadZipFile (msg : string)
| OSError (msg : string)
| ConnectionError (detail : string)
| HTTPError (detail : string)
| NoExtensionCandidatesError (msg : string)
| ExtensionNotInstalledException (extension_name : string)
| OtherException (msg : string).

(* ===================================================================== *)
(** ** Python strings *)
(* ===================================================================== *)

Module PyStr.

Definition chars (s : string) : list ascii := list_ascii_of_string s.
Definition text (l : list ascii) : string := string_of_list_ascii l.

Definition ascii_eqb (a b : ascii) : bool := Ascii.eqb a b.

Fixpoint list_eqb (l k : list ascii) : bool :=
  match l, k with
  | [], [] => true
  | a :: l', b :: k' => ascii_eqb a b && list_eqb l' k'
  | _, _ => false
  end.

(** [s.endswith(suffix)] *)
Definition endswith (s suffix : string) : bool :=
  let l := chars s in
  let k := chars suffix in
  (length k <=? length l)%nat && list_eqb (drop (length l - length k) l) k.

(** [l[:i], l[i+1:]] for the first index [i] with [p l[i]], as
    [str.find] / [str.split(c, 1)] give them. *)
Fixpoint split_first (p : ascii -> bool) (l : list ascii)
  : option (list ascii * list ascii) :=
  match l with
  | [] => None
  | c :: l' =>
      if p c then Some ([], l')
      else match split_first p l' with
           | Some (a, b) => Some (c :: a, b)
           | None => None
           end
  end.

(** the longest prefix without a character satisfying [p], and the rest
    (which starts with that character, if any) *)
Fixpoint span_until (p : ascii -> bool) (l : list ascii)
  : list ascii * list ascii :=
  match l with
  | [] => ([], [])
  | c :: l' =>
      if p c then ([], l)
      else let '(a, b) := span_until p l' in (c :: a, b)
  end.

Definition is_char (c : ascii) : ascii -> bool := fun x => ascii_eqb x c.

(** [posixpath.basename]: [i = p.rfind('/') + 1; return p[i:]] *)
Definition basename (p : string) : string :=
  text (rev (fst (span_until (is_char "/"%char) (rev (chars p))))).

(** [s.replace(a, b)] for one-character [a] and [b] *)
Definition replace (a b : ascii) (s : string) : string :=
  text (map (fun c => if ascii_eqb c a then b else c) (chars s)).

Definition is_digit (c : ascii) : bool :=
  let n := nat_of_ascii c in (48 <=? n)%nat && (n <=? 57)%nat.
Definition is_upper (c : ascii) : bool :=
  let n := nat_of_ascii c in (65 <=? n)%nat && (n <=? 90)%nat.
Definition is_lower (c : ascii) : bool :=
  let n := nat_of_ascii c in (97 <=? n)%nat && (n <=? 122)%nat.

Definition lower_char (c : ascii) : ascii :=
  if is_upper c then ascii_of_nat (nat_of_ascii c + 32) else c.

(** [s.lower()] on ASCII text *)
Definition lower (l : list ascii) : list ascii := map lower_char l.

(** truth value of a string: [if s:] *)
Definition truthy (s : string) : bool :=
  match s with EmptyString => false | _ => true end.

(** truth value of an optional string: [None] and [''] are false *)
Definition truthy_opt (o : option string) : bool :=
  match o with Some s => truthy s | None => false end.

End PyStr.

(* ===================================================================== *)
(** ** Regular expressions, by derivatives *)
(* ===================================================================== *)

Module Regex.

Inductive re : Type :=
| Void : re
| Eps : re
| Sym (p : ascii -> bool) : re
| Cat (r s : re) : re
| Alt (r s : re) : re
| Star (r : re) : re.

Fixpoint nullable (r : re) : bool :=
  match r with
  | Void => false
  | Eps => true
  | Sym _ => false
  | Cat r s => nullable r && nullable s
  | Alt r s => nullable r || nullable s
  | Star _ => true
  end.

Definition is_void (r : re) : bool :=
  match r with Void => true | _ => false end.
Definition is_eps (r : re) : bool :=
  match r with Eps => true | _ => false end.

Definition cat (r s : re) : re :=
  if is_void r || is_void s then Void
  else if is_eps r then s
  else if is_eps s then r
  else Cat r s.

Definition alt (r s : re) : re :=
  if is_void r then s else if is_void s then r else Alt r s.

Fixpoint deriv (c : ascii) (r : re) : re :=
  match r with
  | Void => Void
  | Eps => Void
  | Sym p => if p c then Eps else Void
  | Cat r s =>
      if nullable r then alt (cat (deriv c r) s) (deriv c s)
      else cat (deriv c r) s
  | Alt r s => alt (deriv c r) (deriv c s)
  | Star r => cat (deriv c r) (Star r)
  end.

(** the whole of [l] is a word of [r] *)
Fixpoint matches (r : re) (l : list ascii) : bool :=
  match l with
  | [] => nullable r
  | c :: l' => matches (deriv c r) l'
  end.

Definition opt (r : re) : re := Alt Eps r.
Definition plus (r : re) : re := Cat r (Star r).
Definition chr (c : ascii) : re := Sym (PyStr.is_char c).
Fixpoint lit (l : list ascii) : re :=
  match l with
  | [] => Eps
  | c :: l' => Cat (chr c) (lit l')
  end.
Definition seq (rs : list re) : re := fold_right Cat Eps rs.

End Regex.

(* ===================================================================== *)
(** ** [wheel.install.WHEEL_INFO_RE] *)
(* ===================================================================== *)

(** The pattern, compiled with [re.VERBOSE]:
[[
    ^(?P<namever>(?P<name>.+?)(-(?P<ver>\d.+?))?)
    ((-(?P<build>\d.*?))?-(?P<pyver>.+?)-(?P<abi>.+?)-(?P<plat>.+?)
    \.whl|\.dist-info)$
]]
    Only the group [name] is read by the module. [name] is the first group
    and is lazy, so the backtracking matcher binds it to the shortest
    non-empty prefix after which the rest of the pattern can match. *)
Module Wheel.
Import Regex.

Definition newline : ascii := "010"%char.

(** [.] : any character but a newline *)
Definition dot : re := Sym (fun c => negb (PyStr.ascii_eqb c newline)).
Definition digit : re := Sym PyStr.is_digit.
Definition dash : re := chr "-"%char.

(** what follows the group [name]:
    [(-\d.+?)?((-\d.*?)?-.+?-.+?-.+?\.whl|\.dist-info)$]; without
    [re.MULTILINE], [$] is the end of the text or the position before a
    final newline *)
Definition after_name : re :=
  seq [ opt (seq [dash; digit; plus dot]);
        Alt (seq [ opt (seq [dash; digit; Star dot]);
                   dash; plus dot; dash; plus dot; dash; plus dot;
                   lit (PyStr.chars ".whl") ])
            (lit (PyStr.chars ".dist-info"));
        opt (chr newline) ].

Fixpoint shortest_name (pre rest : list ascii) : option (list ascii) :=
  match rest with
  | [] => None
  | c :: rest' =>
      if PyStr.ascii_eqb c newline then None
      else if matches after_name rest' then Some (rev (c :: pre))
      else shortest_name (c :: pre) rest'
  end.

(** [WHEEL_INFO_RE(filename)], reduced to [m.groupdict().get('name')]:
    [None] when there is no match *)
Definition WHEEL_INFO_RE (filename : string) : option string :=
  PyStr.text <$> shortest_name [] (PyStr.chars filename).

End Wheel.

(* ===================================================================== *)
(** ** [urllib.parse.urlparse] *)
(* ===================================================================== *)

(** The parser of the interpreters the module was written for (CPython 2.7
    and 3.6): scheme, network location, path, parameters, query, fragment. *)
Module Url.
Import PyStr.

Record ParseResult : Type := {
  scheme : string;
  netloc : string;
  path : string;
  params : string;
  query : string;
  fragment : string
}.

Definition is_scheme_char (c : ascii) : bool :=
  is_lower c || is_upper c || is_digit c
  || is_char "+"%char c || is_char "-"%char c || is_char "."%char c.

Definition uses_params : list string :=
  ["ftp"; "hdl"; "prospero"; "http"; "imap"; "https"; "shttp"; "rtsp";
   "rtspu"; "sip"; "sips"; "mms"; ""; "sftp"; "tel"].

Definition uses_netloc : list string :=
  ["ftp"; "http"; "gopher"; "nntp"; "telnet"; "imap"; "wais"; "file"; "mms";
   "https"; "shttp"; "snews"; "prospero"; "rtsp"; "rtspu"; "rsync"; "";
   "svn"; "svn+ssh"; "sftp"; "nfs"; "git"; "git+ssh"].

Definition mem (s : string) (l : list string) : bool :=
  existsb (String.eqb s) l.

(** [i = url.find(':')] and the test on [url[:i]]: the scheme, lower-cased,
    and what follows the colon *)
Definition split_scheme (url : list ascii) : list ascii * list ascii :=
  match split_first (is_char ":"%char) url with
  | Some (c :: pre, rest) =>
      if list_eqb (c :: pre) (chars "http") then (lower (c :: pre), rest)
      else if forallb is_scheme_char (c :: pre)
              && (match rest with [] => true | _ => false end
                  || existsb (fun d => negb (is_digit d)) rest)
           then (lower (c :: pre), rest)
           else ([], url)
  | _ => ([], url)
  end.

(** [if url[:2] == '//': netloc, url = _splitnetloc(url, 2)] *)
Definition split_netloc (url : list ascii) : list ascii * list ascii :=
  match url with
  | "/"%char :: "/"%char :: rest =>
      span_until (fun c => is_char "/"%char c || is_char "?"%char c
                           || is_char "#"%char c) rest
  | _ => ([], url)
  end.

Definition has (c : ascii) (l : list ascii) : bool := existsb (is_char c) l.

Definition bad_brackets (nl : list ascii) : bool :=
  (has "["%char nl && negb (has "]"%char nl))
  || (has "]"%char nl && negb (has "["%char nl)).

(** [url, x = url.split(c, 1)] when [c in url] *)
Definition split_off (c : ascii) (url : list ascii)
  : list ascii * list ascii :=
  match split_first (is_char c) url with
  | Some (a, b) => (a, b)
  | None => (url, [])
  end.

(** [_splitparams]: the first [;] of the last path segment *)
Definition splitparams (url : list ascii) : list ascii * list ascii :=
  let '(seg_rev, head_rev) := span_until (is_char "/"%char) (rev url) in
  match split_first (is_char ";"%char) (rev seg_rev) with
  | Some (a, b) => ((rev head_rev ++ a)%list, b)
  | None => (url, [])
  end.

Definition urlparse (url : string) : exn + ParseResult :=
  let '(sch, u1) := split_scheme (chars url) in
  let '(nl, u2) := split_netloc u1 in
  if bad_brackets nl then inl (ValueError "Invalid IPv6 URL")
  else
    let '(u3, frag) := split_off "#"%char u2 in
    let '(u4, qry) := split_off "?"%char u3 in
    let '(u5, prm) :=
      if mem (text sch) uses_params && has ";"%char u4
      then splitparams u4 else (u4, []) in
    inr {| scheme := text sch; netloc := text nl; path := text u5;
           params := text prm; query := text qry; fragment := text frag |}.

(** [ParseResult.geturl()], that is [urlunparse] *)
Definition geturl (r : ParseResult) : string :=
  let url0 := if truthy (params r) then path r +:+ ";" +:+ params r
              else path r in
  let url1 :=
    if truthy (netloc r)
       || (truthy (scheme r) && mem (scheme r) uses_netloc
           && negb (list_eqb (take 2 (chars url0)) (chars "//")))
    then "//" +:+ netloc r
         +:+ (if truthy url0 && negb (list_eqb (take 1 (chars url0)) (chars "/"))
              then "/" +:+ url0 else url0)
    else url0 in
  let url2 := if truthy (scheme r) then scheme r +:+ ":" +:+ url1 else url1 in
  let url3 := if truthy (query r) then url2 +:+ "?" +:+ query r else url2 in
  if truthy (fragment r) then url3 +:+ "#" +:+ fragment r else url3.

End Url.

(* ===================================================================== *)
(** ** [hashlib.sha256] *)
(* ===================================================================== *)

(** SHA-256 as FIPS 180-4 defines it, on 32-bit words held in [Z]. *)
Module Sha256.

Definition mask32 : Z := 0xffffffff.
Definition w32 (x : Z) : Z := Z.land x mask32.
Definition add32 (x y : Z) : Z := w32 (x + y).
Definition not32 (x : Z) : Z := Z.lxor x mask32.
Definition rotr (n x : Z) : Z :=
  w32 (Z.lor (Z.shiftr x n) (Z.shiftl x (32 - n))).
Definition shr (n x : Z) : Z := Z.shiftr x n.

Definition Ch (x y z : Z) : Z := Z.lxor (Z.land x y) (Z.land (not32 x) z).
Definition Maj (x y z : Z) : Z :=
  Z.lxor (Z.lxor (Z.land x y) (Z.land x z)) (Z.land y z).
Definition Sigma0 (x : Z) : Z := Z.lxor (Z.lxor (rotr 2 x) (rotr 13 x)) (rotr 22 x).
Definition Sigma1 (x : Z) : Z := Z.lxor (Z.lxor (rotr 6 x) (rotr 11 x)) (rotr 25 x).
Definition sigma0 (x : Z) : Z := Z.lxor (Z.lxor (rotr 7 x) (rotr 18 x)) (shr 3 x).
Definition sigma1 (x : Z) : Z := Z.lxor (Z.lxor (rotr 17 x) (rotr 19 x)) (shr 10 x).

(** the first primes, by trial division *)
Definition is_prime (n : nat) : bool :=
  (2 <=? n)%nat
  && forallb (fun d => negb (n mod d =? 0)%nat) (List.seq 2 (n - 2)).

Definition primes (count : nat) : list Z :=
  map Z.of_nat (firstn count (filter is_prime (List.seq 2 310))).

(** the greatest [r] with [r ^ 3 <= n], for [n] below [2 ^ 108] *)
Definition cube_root (n : Z) : Z :=
  fold_left (fun r i => let r' := r + 2 ^ Z.of_nat i in
                        if r' * r' * r' <=? n then r' else r)
            (rev (List.seq 0 36)) 0.

(** the round constants: the first 32 bits of the fractional parts of the
    cube roots of the first 64 primes *)
Definition K : list Z :=
  map (fun p => w32 (cube_root (p * 2 ^ 96))) (primes 64).

(** the initial hash value: the first 32 bits of the fractional parts of
    the square roots of the first 8 primes *)
Definition H0 : list Z :=
  map (fun p => w32 (Z.sqrt (p * 2 ^ 64))) (primes 8).

Definition byte_val (b : byte) : Z := Z.of_N (Byte.to_N b).

(** the message, the bit 1, zero bits up to 56 modulo 64 bytes, and the
    length in bits on 64 bits, as a list of byte values *)
Definition pad (msg : list byte) : list Z :=
  let n := Z.of_nat (length msg) in
  let zeros := Z.to_nat ((55 - n) mod 64) in
  let bits := 8 * n in
  (map byte_val msg ++ [0x80] ++ repeat 0 zeros
   ++ map (fun i => Z.land (Z.shiftr bits (8 * (7 - Z.of_nat i))) 0xff)
          (seq 0 8))%list.

Fixpoint words (fuel : nat) (l : list Z) : list Z :=
  match fuel, l with
  | S f, b0 :: b1 :: b2 :: b3 :: l' =>
      Z.lor (Z.shiftl b0 24) (Z.lor (Z.shiftl b1 16) (Z.lor (Z.shiftl b2 8) b3))
      :: words f l'
  | _, _ => []
  end.

Fixpoint blocks (fuel : nat) (ws : list Z) : list (list Z) :=
  match fuel, ws with
  | _, [] => []
  | O, _ => []
  | S f, _ => firstn 16 ws :: blocks f (skipn 16 ws)
  end.

Definition at_ (l : list Z) (i : nat) : Z := nth i l 0.

(** the message schedule: [count] more words after the ones of [w] *)
Fixpoint schedule (count : nat) (w : list Z) : list Z :=
  match count with
  | O => w
  | S c =>
      let t := length w in
      let x := add32 (add32 (sigma1 (at_ w (t - 2))) (at_ w (t - 7)))
                     (add32 (sigma0 (at_ w (t - 15))) (at_ w (t - 16))) in
      schedule c (w ++ [x])%list
  end.

Record regs : Type := Regs { ra : Z; rb : Z; rc : Z; rd : Z;
                            re : Z; rf : Z; rg : Z; rh : Z }.

Definition round (s : regs) (kw : Z * Z) : regs :=
  let t1 := add32 (add32 (add32 (rh s) (Sigma1 (re s)))
                         (add32 (Ch (re s) (rf s) (rg s)) (fst kw))) (snd kw) in
  let t2 := add32 (Sigma0 (ra s)) (Maj (ra s) (rb s) (rc s)) in
  Regs (add32 t1 t2) (ra s) (rb s) (rc s) (add32 (rd s) t1) (re s) (rf s) (rg s).

Definition of_list (h : list Z) : regs :=
  Regs (at_ h 0) (at_ h 1) (at_ h 2) (at_ h 3)
       (at_ h 4) (at_ h 5) (at_ h 6) (at_ h 7).
Definition to_list (s : regs) : list Z :=
  [ra s; rb s; rc s; rd s; re s; rf s; rg s; rh s].

Definition compress (h : list Z) (block : list Z) : list Z :=
  let w := schedule 48 block in
  let s := fold_left round (combine K w) (of_list h) in
  map (fun p => add32 (fst p) (snd p)) (combine h (to_list s)).

Definition digest (msg : list byte) : list Z :=
  let p := pad msg in
  fold_left compress (blocks (length p) (words (length p) p)) H0.

Definition hex_digit (d : Z) : ascii :=
  if (d <? 10)%Z then ascii_of_nat (Z.to_nat (48 + d))
  else ascii_of_nat (Z.to_nat (87 + d)).

Definition hex_word (x : Z) : list ascii :=
  map (fun i => hex_digit (Z.land (Z.shiftr x (4 * (7 - Z.of_nat i))) 0xf))
      (seq 0 8).

(** [hashlib.sha256(data).hexdigest()]: 64 lower-case hexadecimal digits *)
Definition hexdigest (msg : list byte) : string :=
  PyStr.text (concat (map hex_word (digest msg))).

End Sha256.

(* ===================================================================== *)
(** ** The world: extension store, temporary directories, files *)
(* ===================================================================== *)

(** A directory tree: the content of every file by its path below the
    directory. *)
Abbreviation Bytes := (list byte).
Abbreviation Tree := (gmap string (list byte)).

(** A directory made by [tempfile.mkdtemp]: files written into it and
    directory trees copied into it. *)
Record TempDir : Type := {
  tmp_files : Tree;
  tmp_dirs : gmap string Tree
}.

(** Calls that leave the process. *)
Inductive Event : Type :=
| IndexQuery (extension_name : string) (cur_version index_url : option string)
| HttpGet (url : string)
| PipInstall (target : string) (whl_file : string).

Record World : Type := {
  extensions : gmap string Tree;   (* EXTENSIONS_DIR: one directory per name *)
  temps : gmap nat TempDir;        (* the directories made by mkdtemp *)
  files : gmap string Bytes;       (* regular files elsewhere, by real path *)
  calls : list Event               (* external calls made so far, oldest first *)
}.

Inductive path : Type :=
| ExtDir (name : string)             (* get_extension_path(name) *)
| ExtFile (name file : string)       (* os.path.join(extension_path, file) *)
| TmpDir (d : nat)                   (* tempfile.mkdtemp() *)
| TmpSub (d : nat) (name : string)   (* os.path.join(tmp_dir, name) *)
| Local (real : string).             (* os.path.realpath(...) *)

Definition set_extensions (f : gmap string Tree -> gmap string Tree)
  (w : World) : World :=
  {| extensions := f (extensions w); temps := temps w;
     files := files w; calls := calls w |}.

Definition set_temps (f : gmap nat TempDir -> gmap nat TempDir)
  (w : World) : World :=
  {| extensions := extensions w; temps := f (temps w);
     files := files w; calls := calls w |}.

Definition log (e : Event) (w : World) : World :=
  {| extensions := extensions w; temps := temps w;
     files := files w; calls := (calls w ++ [e])%list |}.

Definition empty_temp : TempDir := {| tmp_files := ∅; tmp_dirs := ∅ |}.

Definition temp_or_empty (w : World) (d : nat) : TempDir :=
  default empty_temp (temps w !! d).

(* ===================================================================== *)
(** ** Computations with effects and exceptions *)
(* ===================================================================== *)

Definition M (A : Type) : Type := World -> (exn + A) * World.

Definition ret {A} (a : A) : M A := fun w => (inr a, w).
Definition raise {A} (e : exn) : M A := fun w => (inl e, w).

Definition bind {A B} (m : M A) (k : A -> M B) : M B :=
  fun w => match m w with
           | (inr a, w') => k a w'
           | (inl e, w') => (inl e, w')
           end.

(** [try: body  except ...: handler]. [handler e] is [None] when no
    [except] clause matches [e], which then goes on to the caller. *)
Definition try_except {A} (body : M A) (handler : exn -> option (M A)) : M A :=
  fun w => match body w with
           | (inl e, w') =>
               match handler e with
               | Some h => h w'
               | None => (inl e, w')
               end
           | r => r
           end.

Definition lift {A} (r : exn + A) : M A := fun w => (r, w).
Definition gets {A} (f : World -> A) : M A := fun w => (inr (f w), w).
Definition modify (f : World -> World) : M unit := fun w => (inr tt, f w).

Declare Scope py_scope.
Delimit Scope py_scope with py.
Notation "x <- m ;; k" := (bind m (fun x => k))
  (at level 100, m at next level, right associativity) : py_scope.
Notation "m ;; k" := (bind m (fun _ => k))
  (at level 100, right associativity) : py_scope.
Local Open Scope py_scope.

(** the outcome and the world a call leaves *)
(** [for a in l: body(a)] *)
Fixpoint for_each {A} (l : list A) (body : A -> M unit) : M unit :=
  match l with
  | [] => ret tt
  | a :: l => bind (body a) (fun _ => for_each l body)
  end.

Definition outcome {A} (r : (exn + A) * World) : exn + A := fst r.
Definition after {A} (r : (exn + A) * World) : World := snd r.

(* ===================================================================== *)
(** ** [tempfile], [shutil], [os.path], [open] *)
(* ===================================================================== *)

Module Fs.

(** [tempfile.mkdtemp()]: a new, empty directory under a name not in use *)
Definition mkdtemp : M path :=
  fun w =>
    let d := fresh (dom (temps w)) in
    (inr (TmpDir d), set_temps <[d := empty_temp]> w).

(** the last component of a path *)
Definition name_of (p : path) : string :=
  match p with
  | ExtDir n => n
  | ExtFile _ f => PyStr.basename f
  | TmpDir _ => ""
  | TmpSub _ f => PyStr.basename f
  | Local r => PyStr.basename r
  end.

(** [os.path.join(dir, name)] *)
Definition join (dir : path) (name : string) : path :=
  match dir with
  | TmpDir d => TmpSub d name
  | ExtDir n => ExtFile n name
  | ExtFile n f => ExtFile n (f +:+ "/" +:+ name)
  | TmpSub d f => TmpSub d (f +:+ "/" +:+ name)
  | Local p => Local (p +:+ "/" +:+ name)
  end.

(** the directory tree at [p], if [p] is a directory *)
Definition read_dir (p : path) (w : World) : option Tree :=
  match p with
  | ExtDir n => extensions w !! n
  | TmpDir d => tmp_files <$> temps w !! d
  | TmpSub d n => temps w !! d ≫= fun t => tmp_dirs t !! n
  | _ => None
  end.

(** the content of the regular file at [p], if there is one *)
Definition read_file (p : path) (w : World) : option Bytes :=
  match p with
  | Local r => files w !! r
  | TmpSub d n => temps w !! d ≫= fun t => tmp_files t !! n
  | ExtFile n f => extensions w !! n ≫= fun t => t !! f
  | _ => None
  end.

Definition path_exists (p : path) (w : World) : bool :=
  bool_decide (is_Some (read_dir p w)) || bool_decide (is_Some (read_file p w)).

(** [os.path.isfile(p)] *)
Definition isfile (p : path) : M bool :=
  gets (fun w => bool_decide (is_Some (read_file p w))).

(** [open(p, 'rb').read()] *)
Definition read (p : path) : M Bytes :=
  fun w => match read_file p w with
           | Some c => (inr c, w)
           | None => (inl (OSError "No such file or directory"), w)
           end.

(** a directory tree put at [p]; the missing parents are made *)
Definition put_dir (p : path) (t : Tree) (w : World) : option World :=
  match p with
  | ExtDir n => Some (set_extensions <[n := t]> w)
  | TmpSub d n =>
      let td := temp_or_empty w d in
      Some (set_temps <[d := {| tmp_files := tmp_files td;
                               tmp_dirs := <[n := t]> (tmp_dirs td) |}]> w)
  | _ => None
  end.

(** a regular file written at [p]; its directory has to exist *)
Definition put_file (p : path) (c : Bytes) (w : World) : option World :=
  match p with
  | Local r =>
      Some {| extensions := extensions w; temps := temps w;
              files := <[r := c]> (files w); calls := calls w |}
  | TmpSub d n =>
      match temps w !! d with
      | Some td =>
          Some (set_temps <[d := {| tmp_files := <[n := c]> (tmp_files td);
                                   tmp_dirs := tmp_dirs td |}]> w)
      | None => None
      end
  | ExtFile n f =>
      match extensions w !! n with
      | Some t => Some (set_extensions <[n := <[f := c]> t]> w)
      | None => None
      end
  | _ => None
  end.

(** the directory at [p] and all below it removed *)
Definition remove_dir (p : path) (w : World) : World :=
  match p with
  | ExtDir n => set_extensions (delete n) w
  | TmpDir d => set_temps (delete d) w
  | TmpSub d n =>
      match temps w !! d with
      | Some td =>
          set_temps <[d := {| tmp_files := tmp_files td;
                             tmp_dirs := delete n (tmp_dirs td) |}]> w
      | None => w
      end
  | _ => w
  end.

(** [shutil.copytree(src, dst)]: [src] has to be a directory and [dst] must
    not exist *)
Definition copytree (src dst : path) : M unit :=
  fun w =>
    match read_dir src w with
    | None => (inl (OSError "No such file or directory"), w)
    | Some t =>
        if path_exists dst w then (inl (OSError "File exists"), w)
        else match put_dir dst t w with
             | Some w' => (inr tt, w')
             | None => (inl (OSError "Not a directory"), w)
             end
    end.

(** [shutil.rmtree(p, ignore_errors)]: [p] has to be a directory; with
    [ignore_errors] a failure is passed over in silence *)
Definition rmtree (p : path) (ignore_errors : bool) : M unit :=
  fun w =>
    match read_dir p w with
    | Some _ => (inr tt, remove_dir p w)
    | None =>
        if ignore_errors then (inr tt, w)
        else (inl (OSError "No such file or directory"), w)
    end.

(** [shutil.copyfile(src, dst)] *)
Definition copyfile (src dst : path) : M unit :=
  fun w =>
    match read_file src w with
    | None => (inl (OSError "No such file or directory"), w)
    | Some c =>
        match put_file dst c w with
        | Some w' => (inr tt, w')
        | None => (inl (OSError "No such file or directory"), w)
        end
    end.

(** [with open(p, 'wb') as f: f.write(...)] *)
Definition write (p : path) (c : Bytes) : M unit :=
  fun w =>
    match put_file p c w with
    | Some w' => (inr tt, w')
    | None => (inl (OSError "No such file or directory"), w)
    end.

(** [open(p, 'wb')]: the file is made, or emptied when it is there *)
Definition create (p : path) : M unit := write p [].

(** [f.write(c)] on the file opened at [p]: [c] comes after what has been
    written *)
Definition append (p : path) (c : Bytes) : M unit :=
  fun w =>
    match read_file p w with
    | Some written =>
        match put_file p (written ++ c)%list w with
        | Some w' => (inr tt, w')
        | None => (inl (OSError "No such file or directory"), w)
        end
    | None => (inl (OSError "No such file or directory"), w)
    end.

(** [ZipFile.extractall(dir)]: the members of the archive written below
    [dir], over what is there *)
Definition extractall (members : Tree) (dir : path) : M unit :=
  fun w =>
    match dir with
    | TmpDir d =>
        match temps w !! d with
        | Some td =>
            (inr tt,
             set_temps <[d := {| tmp_files := members ∪ tmp_files td;
                                tmp_dirs := tmp_dirs td |}]> w)
        | None => (inl (OSError "No such file or directory"), w)
        end
    | _ => (inl (OSError "Not a directory"), w)
    end.

End Fs.

(* ===================================================================== *)
(** ** Collaborators *)
(* ===================================================================== *)

(** [requests.Response] of a request made with [stream=True]: the status,
    and the body that [iter_content] delivers *)
Record Response : Type := { status_code : Z; content : Bytes }.

(** An exchange that the transport fails: [requests.get] raises, or it
    returns a response and [iter_content] raises once a part of the body,
    the [content] of [r], has come. *)
Inductive Failure : Type :=
| Refused (e : exn)
| Interrupted (r : Response) (e : exn).

(** [Response.iter_content(chunk_size)]: what comes, in pieces of
    [chunk_size] bytes, the last one as long as what is left *)
Fixpoint pieces (fuel chunk_size : nat) (body : Bytes) : list Bytes :=
  match fuel, body with
  | S fuel, _ :: _ =>
      take chunk_size body :: pieces fuel chunk_size (drop chunk_size body)
  | _, _ => []
  end.

Definition iter_content (chunk_size : nat) (body : Bytes) : list Bytes :=
  pieces (length body) chunk_size body.

(** What the module imports from outside itself and that reaches beyond the
    process or into code not kept here. Each field is the behaviour of one
    callee; nothing is assumed about any of them. *)
Record Collab : Type := {
  (** the dictionary of [azext_metadata.json], or [None] *)
  azext_metadata : Type;
  (** [WheelExtension.get_azext_metadata(ext_dir)] on an extracted tree *)
  get_azext_metadata : Tree -> exn + azext_metadata;
  (** [ext_compat_with_cli]: [(is_compatible, cli_core_version,
      min_required, max_required)] *)
  ext_compat_with_cli :
    azext_metadata -> bool * string * option string * option string;
  (** [Extension.get_version()] of an installed directory *)
  get_version : Tree -> string;
  (** [resolve_from_index(name, cur_version, index_url)]: the download URL
      and its digest, or an exception *)
  resolve_from_index :
    string -> option string -> option string -> exn + (string * option string);
  (** [requests.get(url, stream=True)] and the iteration of the body that
      follows it: the response whose body comes to its end, or the way the
      transport fails *)
  requests_get : string -> Failure + Response;
  (** [zipfile.ZipFile(f, 'r')]: the members, or [None] for a file that is
      no zip archive *)
  zip_members : Bytes -> option Tree;
  (** [pip install --target dir whl]: the return code of the subprocess and
      what it leaves at [dir], given the name of the file, its content if
      it is there, and what was at [dir] *)
  pip_install : string -> option Bytes -> option Tree -> Z * option Tree;
  (** [os.path.realpath(os.path.expanduser(p))] *)
  realpath : string -> string
}.

(* ===================================================================== *)
(** ** Messages and error kinds *)
(* ===================================================================== *)

Module Kind.

Definition UnsupportedArtifactType : exn :=
  ValueError "Unknown extension type. Only Python wheels are supported.".

Definition NameResolutionFailed (source : string) : exn :=
  CLIError ("Unable to determine extension name from " +:+ source
            +:+ ". Is the file name correct?").

Definition AlreadyExists (extension_name : string) : exn :=
  CLIError ("The extension " +:+ extension_name +:+ " already exists.").

Definition RequestFailed (url : string) (status : Z) : exn :=
  CLIError ("Request to " +:+ url +:+ " failed with " +:+ pretty status).

Definition DownloadFailed (detail : string) : exn :=
  CLIError ("Please ensure you have network connection. Error detail: "
            +:+ detail).

Definition FileNotFound (source : string) : exn :=
  CLIError ("File " +:+ source +:+ " not found.").

Definition ChecksumMismatch : exn :=
  CLIError ("The checksum of the extension does not match the expected value. "
            +:+ "Use --debug for more information.").

Definition InvalidArtifact : exn :=
  CLIError "The extension is invalid. Use --debug for more information.".

Definition IncompatibleVersion (detail : string) : exn :=
  CLIError ("The extension is not compatible with this version of the CLI."
            +:+ String Wheel.newline detail).

Definition InstallationFailed (pip_status_code : Z) : exn :=
  CLIError ("An error occurred. Pip failed with status code "
            +:+ pretty pip_status_code
            +:+ ". Use --debug for more information.").

Definition NoCandidateFound (extension_name : string) : exn :=
  CLIError ("No matching extensions for '" +:+ extension_name
            +:+ "'. Use --debug for more information.").

Definition NoUpdateAvailable (extension_name : string) : exn :=
  CLIError ("No updates available for '" +:+ extension_name
            +:+ "'. Use --debug for more information.").

Definition UpdateFailed (extension_name cur_version : string) : exn :=
  CLIError ("Failed to update. Rolled " +:+ extension_name +:+ " back to "
            +:+ cur_version +:+ ".").

(** Modelled from the spec: the text of [ExtensionNotInstalledException],
    declared in [azure.cli.core.extension]; the design only says that a
    name absent from the store fails as not installed. *)
Definition not_installed_text (extension_name : string) : string :=
  "The extension " +:+ extension_name +:+ " is not installed.".

Definition NotInstalled (extension_name : string) : exn :=
  CLIError (not_installed_text extension_name).

End Kind.

(** [str(e)] *)
Definition str_exn (e : exn) : string :=
  match e with
  | CLIError m | ValueError m | AttributeError m | AssertionError m
  | BadZipFile m | OSError m | ConnectionError m | HTTPError m
  | NoExtensionCandidatesError m | OtherException m => m
  | ExtensionNotInstalledException n => Kind.not_installed_text n
  end.

(* ===================================================================== *)
(** ** The extension store, [azure.cli.core.extension] *)
(* ===================================================================== *)

(** Modelled from the spec: [get_extension_path] of
    [azure.cli.core.extension] is not part of the module. The store is the
    on-disk registry of the installed extensions and [pathFor(name)] is the
    directory of [name]. *)
Definition get_extension_path (extension_name : string) : path :=
  ExtDir extension_name.

(** Modelled from the spec: [extension_exists] of
    [azure.cli.core.extension] is not part of the module. [exists(name)]
    tells whether the directory of [name] is in the store. *)
Definition extension_exists (extension_name : string) : M bool :=
  gets (fun w => bool_decide (is_Some (extensions w !! extension_name))).

(** Modelled from the spec: [get_extension] of [azure.cli.core.extension]
    is not part of the module. [get(name)] gives the installed extension,
    here its directory, and fails as not installed when it is absent. *)
Definition get_extension (extension_name : string) : M Tree :=
  fun w => match extensions w !! extension_name with
           | Some t => (inr t, w)
           | None => (inl (ExtensionNotInstalledException extension_name), w)
           end.

(** [exists(n)] as a predicate on worlds *)
Definition installed (n : string) (w : World) : bool :=
  bool_decide (is_Some (extensions w !! n)).

(* ===================================================================== *)
(** ** [custom.py] *)
(* ===================================================================== *)

Section Custom.

Variable C : Collab.

(** [_run_pip(['install', '--target', extension_path, ext_file])]:
    [check_output] raises [CalledProcessError] exactly on a non-zero return
    code, which is then what is returned. The patch of the environment
    around the call ([HomebrewPipPatch]) is not modelled. *)
Definition _run_pip (extension_path ext_file : path) : M Z :=
  match extension_path with
  | ExtDir target =>
      fun w =>
        let '(returncode, produced) :=
          pip_install C (Fs.name_of ext_file) (Fs.read_file ext_file w)
                      (extensions w !! target) in
        let w' := log (PipInstall target (Fs.name_of ext_file))
                      (set_extensions
                         (match produced with
                          | Some t => <[target := t]>
                          | None => delete target
                          end) w) in
        if returncode =? 0 then (inr 0, w') else (inr returncode, w')
  | _ => raise (OSError "Not a directory")
  end.

(** The request is made, and the status is tested before the file is
    opened. The file is then made, and the pieces of the body are written
    to it as they come, the empty ones passed over. An exception raised
    while the body is read leaves the file with what had been written. *)
Definition _whl_download_from_url (url_parse_result : Url.ParseResult)
    (ext_file : path) : M unit :=
  let url := Url.geturl url_parse_result in
  modify (log (HttpGet url)) ;;
  x <- lift (match requests_get C url with
             | inl (Refused e) => inl e
             | inl (Interrupted r e) => inr (r, Some e)
             | inr r => inr (r, None)
             end) ;;
  let '(r, broken) := x in
  if negb (status_code r =? 200)
  then raise (Kind.RequestFailed url (status_code r))
  else
    Fs.create ext_file ;;
    for_each (iter_content 1024 (content r))
      (fun chunk =>
         match chunk with
         | [] => ret tt
         | _ => Fs.append ext_file chunk
         end) ;;
    match broken with
    | Some e => raise e
    | None => ret tt
    end.

Definition _validate_whl_cli_compat (metadata : azext_metadata C) : M unit :=
  let '(is_compatible, cli_core_version, min_required, max_required) :=
    ext_compat_with_cli C metadata in
  if negb is_compatible then
    let min_max_msg_fmt :=
      "You have CLI core version " +:+ cli_core_version
      +:+ " and this extension requires " in
    let mn := default "" min_required in
    let mx := default "" max_required in
    raise (Kind.IncompatibleVersion
      (if PyStr.truthy_opt min_required && PyStr.truthy_opt max_required
       then min_max_msg_fmt +:+ "a min of " +:+ mn +:+ " and max of " +:+ mx +:+ "."
       else if PyStr.truthy_opt min_required
       then min_max_msg_fmt +:+ "a min of " +:+ mn +:+ "."
       else if PyStr.truthy_opt max_required
       then min_max_msg_fmt +:+ "a max of " +:+ mx +:+ "."
       else min_max_msg_fmt))
  else ret tt.

Definition _validate_whl_extension (ext_file : path) : M unit :=
  tmp_dir <- Fs.mkdtemp ;;
  data <- Fs.read ext_file ;;
  members <- lift (match zip_members C data with
                   | Some t => inr t
                   | None => inl (BadZipFile "File is not a zip file")
                   end) ;;
  Fs.extractall members tmp_dir ;;
  extracted <- gets (fun w => default ∅ (Fs.read_dir tmp_dir w)) ;;
  metadata <- lift (get_azext_metadata C extracted) ;;
  Fs.rmtree tmp_dir false ;;
  _validate_whl_cli_compat metadata.

Definition is_valid_sha256sum (a_file : path) (expected_sum : string)
  : M (bool * string) :=
  data <- Fs.read a_file ;;
  let computed_hash := Sha256.hexdigest data in
  ret (String.eqb expected_sum computed_hash, computed_hash).

(** [is_url = (url_parse_result.scheme == 'http' or
               url_parse_result.scheme == 'https')] *)
Definition is_url (url_parse_result : Url.ParseResult) : bool :=
  String.eqb (Url.scheme url_parse_result) "http"
  || String.eqb (Url.scheme url_parse_result) "https".

(** [whl_filename], lines 93 *)
Definition whl_filename_of (source : string)
    (url_parse_result : Url.ParseResult) : string :=
  if is_url url_parse_result
  then PyStr.basename (Url.path url_parse_result)
  else PyStr.basename source.

(** [extension_name], lines 94 to 96: [None] without a match *)
Definition extension_name_of (whl_filename : string) : option string :=
  match Wheel.WHEEL_INFO_RE whl_filename with
  | Some name => Some (PyStr.replace "_"%char "-"%char name)
  | None => None
  end.

(** the download of lines 103 to 111 *)
Definition fetch_url (url_parse_result : Url.ParseResult)
    (whl_filename : string) : M path :=
  tmp_dir <- Fs.mkdtemp ;;
  let ext_file := Fs.join tmp_dir whl_filename in
  try_except (_whl_download_from_url url_parse_result ext_file)
    (fun err =>
       match err with
       | ConnectionError _ | HTTPError _ =>
           Some (raise (Kind.DownloadFailed (str_exn err)))
       | _ => None
       end) ;;
  ret ext_file.

(** the file lookup of lines 113 to 116 *)
Definition fetch_local (source : string) : M path :=
  let ext_file := Local (realpath C source) in
  found <- Fs.isfile ext_file ;;
  if negb found then raise (Kind.FileNotFound source) else ret ext_file.

(** the checksum test of lines 119 to 127 *)
Definition check_sha256 (ext_file : path) (ext_sha256 : option string)
  : M unit :=
  if PyStr.truthy_opt ext_sha256 then
    r <- is_valid_sha256sum ext_file (default "" ext_sha256) ;;
    if fst r then ret tt else raise Kind.ChecksumMismatch
  else ret tt.

(** the validation of lines 128 to 134 *)
Definition validate (ext_file : path) : M unit :=
  try_except (_validate_whl_extension ext_file)
    (fun e =>
       match e with
       | AssertionError _ => Some (raise Kind.InvalidArtifact)
       | CLIError _ => Some (raise e)
       | _ => None
       end).

(** the installation of lines 137 to 150 *)
Definition install (extension_name whl_filename : string) (ext_file : path)
  : M unit :=
  let extension_path := get_extension_path extension_name in
  pip_status_code <- _run_pip extension_path ext_file ;;
  if pip_status_code >? 0 then
    Fs.rmtree extension_path true ;;
    raise (Kind.InstallationFailed pip_status_code)
  else
    let dst := Fs.join extension_path whl_filename in
    Fs.copyfile ext_file dst.

Definition _add_whl_ext (source : option string) (ext_sha256 : option string)
  : M unit :=
  match source with
  | None =>
      raise (AttributeError "'NoneType' object has no attribute 'endswith'")
  | Some source =>
      if negb (PyStr.endswith source ".whl")
      then raise Kind.UnsupportedArtifactType
      else
        url_parse_result <- lift (Url.urlparse source) ;;
        let whl_filename := whl_filename_of source url_parse_result in
        match extension_name_of whl_filename with
        | None => raise (Kind.NameResolutionFailed source)
        | Some extension_name =>
            if negb (PyStr.truthy extension_name)
            then raise (Kind.NameResolutionFailed source)
            else
              present <- extension_exists extension_name ;;
              if (present : bool) then raise (Kind.AlreadyExists extension_name)
              else
                ext_file <- (if is_url url_parse_result
                             then fetch_url url_parse_result whl_filename
                             else fetch_local source) ;;
                check_sha256 ext_file ext_sha256 ;;
                validate ext_file ;;
                install extension_name whl_filename ext_file
        end
  end.

Definition add_extension (source : option string)
    (extension_name : option string) (index_url : option string) : M unit :=
  if PyStr.truthy_opt extension_name then
    let name := default "" extension_name in
    present <- extension_exists name ;;
    if (present : bool) then raise (Kind.AlreadyExists name)
    else
      r <- try_except
             (modify (log (IndexQuery name None index_url)) ;;
              lift (resolve_from_index C name None index_url))
             (fun err =>
                match err with
                | NoExtensionCandidatesError _ =>
                    Some (raise (Kind.NoCandidateFound name))
                | _ => None
                end) ;;
      _add_whl_ext (Some (fst r)) (snd r)
  else _add_whl_ext source None.

Definition remove_extension (extension_name : string) : M unit :=
  try_except
    (get_extension extension_name ;;
     Fs.rmtree (get_extension_path extension_name) false)
    (fun e =>
       match e with
       | ExtensionNotInstalledException _ => Some (raise (CLIError (str_exn e)))
       | _ => None
       end).

Definition update_extension (extension_name : string)
    (index_url : option string) : M unit :=
  try_except
    (ext <- get_extension extension_name ;;
     let cur_version := get_version C ext in
     r <- try_except
            (modify (log (IndexQuery extension_name (Some cur_version) index_url)) ;;
             lift (resolve_from_index C extension_name (Some cur_version) index_url))
            (fun err =>
               match err with
               | NoExtensionCandidatesError _ =>
                   Some (raise (Kind.NoUpdateAvailable extension_name))
               | _ => None
               end) ;;
     let download_url := fst r in
     let ext_sha256 := snd r in
     tmp <- Fs.mkdtemp ;;
     let backup_dir := Fs.join tmp extension_name in
     let extension_path := get_extension_path extension_name in
     Fs.copytree extension_path backup_dir ;;
     Fs.rmtree extension_path false ;;
     try_except
       (_add_whl_ext (Some download_url) ext_sha256 ;;
        Fs.rmtree backup_dir false)
       (fun err =>
          Some (Fs.copytree backup_dir extension_path ;;
                raise (Kind.UpdateFailed extension_name cur_version))))
    (fun e =>
       match e with
       | ExtensionNotInstalledException _ => Some (raise (CLIError (str_exn e)))
       | _ => None
       end).

End Custom.

(* ===================================================================== *)
(** ** Test doubles *)
(* ===================================================================== *)

(** Collaborators with a fixed behaviour, to run the module on concrete
    inputs: a toy archive format, an index, a server and an installer whose
    answers are given. *)
Module Double.

Definition bytes (s : string) : Bytes := list_byte_of_string s.
Definition same (data : Bytes) (s : string) : bool :=
  String.eqb (string_of_list_byte data) s.

Definition wheel_1_0_0 : Bytes := bytes "PK azext_sample 1.0.0".
Definition wheel_1_1_0 : Bytes := bytes "PK azext_sample 1.1.0".
Definition wheel_without_module : Bytes := bytes "PK".
Definition not_a_zip : Bytes := bytes "<html>Not Found</html>".

Definition module_file : string := "azext_sample/__init__.py".
Definition version_file : string := "sample_ext.dist-info/VERSION".

Definition members (version : string) : Tree :=
  {[ module_file := bytes "pass"; version_file := bytes version ]}.

Definition unzip (data : Bytes) : option Tree :=
  if same data "PK azext_sample 1.0.0" then Some (members "1.0.0")
  else if same data "PK azext_sample 1.1.0" then Some (members "1.1.0")
  else if same data "PK" then Some ∅
  else None.

Definition read_metadata (t : Tree) : exn + unit :=
  match t !! module_file with
  | Some _ => inr tt
  | None => inl (AssertionError
                   "Expected 1 module to load starting with 'azext_': got []")
  end.

Definition version_of (t : Tree) : string :=
  match t !! version_file with
  | Some v => string_of_list_byte v
  | None => "unknown"
  end.

(** an installer that unpacks the archive and returns [code] *)
Definition unpack (code : Z) (name : string) (data : option Bytes)
    (present : option Tree) : Z * option Tree :=
  (code, data ≫= unzip).

(** an installer that returns [code] and leaves nothing *)
Definition nothing (code : Z) (name : string) (data : option Bytes)
    (present : option Tree) : Z * option Tree :=
  (code, None).

Definition collab
    (index : exn + (string * option string))
    (server : Failure + Response)
    (pip : string -> option Bytes -> option Tree -> Z * option Tree) : Collab :=
  {| azext_metadata := unit;
     get_azext_metadata := read_metadata;
     ext_compat_with_cli := fun _ => (true, "2.0.24", None, None);
     get_version := version_of;
     resolve_from_index := fun _ _ _ => index;
     requests_get := fun _ => server;
     zip_members := unzip;
     pip_install := pip;
     realpath := fun p => p |}.

Definition no_index : exn + (string * option string) :=
  inl (NoExtensionCandidatesError "No suitable extensions found.").
Definition no_server : Failure + Response :=
  inl (Refused (ConnectionError "Connection refused")).
Definition serves (data : Bytes) : Failure + Response :=
  inr {| status_code := 200; content := data |}.
(** a server whose connection is reset once [data] has come *)
Definition cut_off (data : Bytes) : Failure + Response :=
  inl (Interrupted {| status_code := 200; content := data |}
         (ConnectionError "Connection reset by peer")).

Definition empty_world : World :=
  {| extensions := ∅; temps := ∅; files := ∅; calls := [] |}.

(** a store with [sample-ext] 1.0.0 installed *)
Definition installed_world : World :=
  {| extensions :=
       {[ "sample-ext" :=
            <[ "sample_ext-1.0.0-py3-none-any.whl" := wheel_1_0_0 ]>
              (members "1.0.0") ]};
     temps := ∅; files := ∅; calls := [] |}.

Definition sample_url : string :=
  "https://x/sample_ext-1.0.0-py3-none-any.whl".
Definition update_url : string :=
  "https://x/sample_ext-1.1.0-py3-none-any.whl".


(** an index that answers with a wheel of another name *)
Definition renamed : Collab :=
  collab (inr ("https://x/other_ext-2.0.0-py3-none-any.whl", None))
         (serves wheel_1_1_0) (unpack 0).

Definition failing_update : Collab :=
  collab (inr (update_url, None)) (serves wheel_1_1_0) (unpack 1).

Definition sample_tree : Tree :=
  <[ "sample_ext-1.0.0-py3-none-any.whl" := wheel_1_0_0 ]> (members "1.0.0").

Definition bad_download : Collab :=
  collab no_index (serves not_a_zip) (unpack 0).

Definition killed : Collab := collab no_index no_server (unpack (-9)).

Definition local_whl : string := "/home/u/sample_ext-1.0.0-py3-none-any.whl".

Definition whl_name : string := "sample_ext-1.0.0-py3-none-any.whl".

Definition world_with (data : Bytes) : World :=
  {| extensions := ∅; temps := ∅; files := {[ local_whl := data ]};
     calls := [] |}.

Definition digest_1_0_0 : string :=
  "1e3a997ffddfe3bbe33a6f345d8f1952593d49c9e738d6bc2e80288469f28443".

Definition sample_parse : Url.ParseResult :=
  {| Url.scheme := "https"; Url.netloc := "x";
     Url.path := "/sample_ext-1.0.0-py3-none-any.whl";
     Url.params := ""; Url.query := ""; Url.fragment := "" |}.

Definition nothing_newer : Collab :=
  collab no_index no_server (unpack 0).

Definition good : Collab := collab no_index (serves wheel_1_0_0) (unpack 0).

(** the world after [sample-ext] has been installed from the sample URL *)
Definition after_add : World :=
  after (_add_whl_ext good (Some sample_url) None empty_world).

(** an index whose digest for the sample is not the digest of the file *)
Definition wrong_digest : Collab :=
  collab (inr (sample_url, Some "deadbeef")) (serves wheel_1_0_0) (unpack 0).

Definition not_found : Collab :=
  collab no_index (inr {| status_code := 404; content := not_a_zip |})
         (unpack 0).

(** a server that breaks off after the first two bytes of the body *)
Definition reset : Collab :=
  collab no_index (cut_off wheel_without_module) (unpack 0).

Definition local_parse : Url.ParseResult :=
  {| Url.scheme := ""; Url.netloc := ""; Url.path := local_whl;
     Url.params := ""; Url.query := ""; Url.fragment := "" |}.

Definition wheel_type (t : Tree) : string := "whl".
Definition no_metadata (t : Tree) : unit := tt.

End Double.

(* ===================================================================== *)
(** ** Vocabulary of the statements *)
(* ===================================================================== *)

(** Worlds that differ by new temporary directories and new calls only. *)
Definition temps_kept (w w' : World) : Prop :=
  forall d td, temps w !! d = Some td -> temps w' !! d = Some td.

Record quiet (w w' : World) : Prop := Quiet {
  quiet_extensions : extensions w' = extensions w;
  quiet_temps : temps_kept w w';
  quiet_files : files w' = files w
}.

(** a path where an artifact is kept: a file of a temporary directory or a
    file elsewhere, never one of the extension store *)
Definition artifact_path (p : path) : Prop :=
  match p with
  | TmpSub _ _ | Local _ => True
  | _ => False
  end.

(** Worlds that agree but for the temporary directory [d] and the calls. *)
Record same_but (d : nat) (w w' : World) : Prop := SameBut {
  same_extensions : extensions w' = extensions w;
  same_temps : forall d', d' <> d -> temps w' !! d' = temps w !! d';
  same_files : files w' = files w
}.

(** [m] changes nothing but the temporary directory [d] *)
Definition confined {A} (d : nat) (m : M A) : Prop :=
  forall w res w', m w = (res, w') -> same_but d w w'.

(** [m] only adds calls to the record, and each call it adds satisfies [P] *)
Definition emits {A} (P : Event -> Prop) (m : M A) : Prop :=
  forall w res w', m w = (res, w') ->
    exists l, calls w' = (calls w ++ l)%list /\ Forall P l.


Definition any_call (e : Event) : Prop := True.

(** the artifact with its bit [i] flipped: bit [i mod 8] of byte [i / 8] *)
Definition flip (k : N) (b : byte) : byte :=
  default b (Byte.of_N (N.lxor (Byte.to_N b) (2 ^ k))).

Definition flip_bit (i : nat) (data : Bytes) : Bytes :=
  alter (flip (N.of_nat (i mod 8))) (i / 8)%nat data.

(** the backup directory of an update that starts in [w]:
    [os.path.join(tempfile.mkdtemp(), extension_name)] *)
Definition backup_dir_of (w : World) (extension_name : string) : path :=
  TmpSub (fresh (dom (temps w))) extension_name.

(** the world when the installation of the new version starts: the query is
    recorded, the backup is made and the directory is removed *)
Definition staged (n : string) (cur : string) (idx : option string)
    (t : Tree) (w : World) : World :=
  set_extensions (delete n)
    (set_temps <[fresh (dom (temps w)) :=
                   {| tmp_files := ∅; tmp_dirs := {[n := t]} |}]>
       (log (IndexQuery n (Some cur) idx) w)).

(** the world once the archive at [p] has been extracted into the
    directory that [_validate_whl_extension] has just made *)
Definition extracted_into (w : World) (members : Tree) : World :=
  set_temps <[fresh (dom (temps w)) :=
                {| tmp_files := members; tmp_dirs := ∅ |}]> w.

Section Vocabulary.

Variable C : Collab.

(** the stages that follow the resolution of the name *)
Definition pipeline (source : string) (r : Url.ParseResult)
    (n : string) (sha : option string) : M unit :=
  ext_file <- (if is_url r
               then fetch_url C r (whl_filename_of source r)
               else fetch_local C source) ;;
  check_sha256 ext_file sha ;;
  validate C ext_file ;;
  install C n (whl_filename_of source r) ext_file.

(** what [update_extension] does once the index has given a candidate *)
Definition swap (n : string) (cur : string) (url : string)
    (sha : option string) (w : World) : M unit :=
  try_except
    (_add_whl_ext C (Some url) sha ;; Fs.rmtree (backup_dir_of w n) false)
    (fun err =>
       Some (Fs.copytree (backup_dir_of w n) (get_extension_path n) ;;
             raise (Kind.UpdateFailed n cur))).

End Vocabulary.

(* ===================================================================== *)
(** ** Vocabulary of the further statements *)
(* ===================================================================== *)

(** the world after a download into a new temporary directory: the
    request is on record and the directory holds what was written *)
Definition downloaded (r : Url.ParseResult) (written : Tree) (w : World)
  : World :=
  log (HttpGet (Url.geturl r))
      (set_temps <[fresh (dom (temps w)) :=
                     {| tmp_files := written; tmp_dirs := ∅ |}]> w).

(** the calls that are no query of the index, and those that are no run
    of the installer *)
Definition not_a_query (e : Event) : Prop :=
  match e with IndexQuery _ _ _ => False | _ => True end.

Definition not_pip (e : Event) : Prop :=
  match e with PipInstall _ _ => False | _ => True end.

(** [is_compatible] of [ext_compat_with_cli] *)
Definition compatible (C : Collab) (m : azext_metadata C) : bool :=
  fst (fst (fst (ext_compat_with_cli C m))).

Section Outcomes.

Variable C : Collab.




End Outcomes.

(* ===================================================================== *)
(** ** [custom.py]: listing *)
(* ===================================================================== *)

Definition OUT_KEY_NAME : string := "name".
Definition OUT_KEY_VERSION : string := "version".
Definition OUT_KEY_TYPE : string := "extensionType".
Definition OUT_KEY_METADATA : string := "metadata".

Section Listing.

Variable C : Collab.

(** [Extension.ext_type] and [Extension.metadata] of an installed
    directory, read by [azure.cli.core.extension] *)
Variable ext_type : Tree -> string.
Variable metadata : Type.
Variable ext_metadata : Tree -> metadata.

(** a value of the dictionaries that are returned *)
Inductive value : Type :=
| Str (s : string)
| Meta (m : metadata).

(** a dictionary literal, in the order it is written *)
Definition dict : Type := list (string * value).

(** [d.get(k)] *)
Fixpoint dict_get (k : string) (d : dict) : option value :=
  match d with
  | [] => None
  | (k', v) :: d' => if String.eqb k k' then Some v else dict_get k d'
  end.

(** Modelled from the spec: [get_extensions] of [azure.cli.core.extension]
    is not part of the module. [listAll()] gives the installed extensions,
    one for each directory of the store, with its name. *)
Definition get_extensions : M (list (string * Tree)) :=
  gets (fun w => map_to_list (extensions w)).

Definition list_extensions : M (list dict) :=
  exts <- get_extensions ;;
  ret (map (fun ext =>
              [(OUT_KEY_NAME, Str (fst ext));
               (OUT_KEY_VERSION, Str (get_version C (snd ext)));
               (OUT_KEY_TYPE, Str (ext_type (snd ext)))])
           exts).

Definition show_extension (extension_name : string) : M dict :=
  try_except
    (extension <- get_extension extension_name ;;
     ret [(OUT_KEY_NAME, Str extension_name);
          (OUT_KEY_VERSION, Str (get_version C extension));
          (OUT_KEY_TYPE, Str (ext_type extension));
          (OUT_KEY_METADATA, Meta (ext_metadata extension))])
    (fun e =>
       match e with
       | ExtensionNotInstalledException _ => Some (raise (CLIError (str_exn e)))
       | _ => None
       end).

End Listing.

Arguments Str {metadata} s.
Arguments Meta {metadata} m.
Arguments dict_get {metadata} k d.

(* ===================================================================== *)
(** ** Reasoning about computations *)
(* ===================================================================== *)

Lemma bind_inv {A B} (m : M A) (k : A -> M B) w r w' :
  bind m k w = (r, w') ->
  (exists a w1, m w = (inr a, w1) /\ k a w1 = (r, w'))
  \/ (exists e, m w = (inl e, w') /\ r = inl e).
Proof.
  unfold bind. destruct (m w) as [[e | a] w1] eqn:E; intros H.
  - right. exists e. by simplify_eq.
  - left. by exists a, w1.
Qed.

Lemma bind_ok {A B} (m : M A) (k : A -> M B) w a w1 :
  m w = (inr a, w1) -> bind m k w = k a w1.
Proof. unfold bind. by intros ->. Qed.

Lemma try_except_inv {A} (body : M A) h w r w' :
  try_except body h w = (r, w') ->
  (exists a, body w = (inr a, w') /\ r = inr a)
  \/ (exists e, body w = (inl e, w') /\ h e = None /\ r = inl e)
  \/ (exists e w1 hd, body w = (inl e, w1) /\ h e = Some hd /\ hd w1 = (r, w')).
Proof.
  unfold try_except. destruct (body w) as [[e | a] w1] eqn:E; intros H.
  - destruct (h e) as [hd |] eqn:Eh.
    + right. right. by exists e, w1, hd.
    + right. left. exists e. by simplify_eq.
  - left. exists a. by simplify_eq.
Qed.

Lemma quiet_refl w : quiet w w.
Proof. split; [done | by intros d td H | done]. Qed.

Lemma quiet_trans w1 w2 w3 : quiet w1 w2 -> quiet w2 w3 -> quiet w1 w3.
Proof.
  intros [E1 T1 F1] [E2 T2 F2]. split; [congruence | | congruence].
  intros d td H. by apply T2, T1.
Qed.


Lemma fresh_temp_none (w : World) : temps w !! fresh (dom (temps w)) = None.
Proof. apply not_elem_of_dom, is_fresh. Qed.

Lemma mkdtemp_run w :
  Fs.mkdtemp w
  = (inr (TmpDir (fresh (dom (temps w)))),
     set_temps <[fresh (dom (temps w)) := empty_temp]> w).
Proof. reflexivity. Qed.

Lemma read_file_set_extensions p f w :
  artifact_path p ->
  Fs.read_file p (set_extensions f w) = Fs.read_file p w.
Proof. by destruct p. Qed.

Lemma read_file_log p e w : Fs.read_file p (log e w) = Fs.read_file p w.
Proof. by destruct p. Qed.

Lemma read_run p w :
  Fs.read p w = match Fs.read_file p w with
                | Some c => (inr c, w)
                | None => (inl (OSError "No such file or directory"), w)
                end.
Proof. reflexivity. Qed.

(* ===================================================================== *)
(** ** A file written piece by piece *)
(* ===================================================================== *)

Lemma concat_pieces fuel k body :
  (0 < k)%nat -> (length body <= fuel)%nat ->
  concat (pieces fuel k body) = body.
Proof.
  intros Hk. revert body.
  induction fuel as [| fuel IH]; intros [| b body] Hl; simpl in *; try done.
  - lia.
  - destruct k as [| k]; [lia |]. simpl. f_equal.
    rewrite IH; [apply take_drop |]. rewrite length_drop. lia.
Qed.

Lemma concat_iter_content k body :
  (0 < k)%nat -> concat (iter_content k body) = body.
Proof. intros Hk. by apply concat_pieces. Qed.

(** Writing a file again overwrites what the first writing left. *)
Lemma put_file_again p c c' w w1 :
  Fs.put_file p c w = Some w1 ->
  Fs.put_file p c' w1 = Fs.put_file p c' w /\ Fs.read_file p w1 = Some c.
Proof.
  destruct p as [| n f | | d f | l]; simpl; try done.
  - destruct (extensions w !! n) as [t |]; [| done]. intros [= <-]. simpl.
    rewrite !lookup_insert_eq. simpl. rewrite lookup_insert_eq.
    split; [| done]. unfold set_extensions. simpl.
    by rewrite !insert_insert_eq.
  - destruct (temps w !! d) as [td |]; [| done]. intros [= <-]. simpl.
    rewrite !lookup_insert_eq. simpl. rewrite lookup_insert_eq.
    split; [| done]. unfold set_temps. simpl.
    by rewrite !insert_insert_eq.
  - intros [= <-]. simpl. rewrite lookup_insert_eq.
    split; [| done]. by rewrite insert_insert_eq.
Qed.

(** Whether a file can be written does not depend on what is written. *)
Lemma put_file_none p c c' w :
  Fs.put_file p c w = None -> Fs.put_file p c' w = None.
Proof.
  destruct p as [| n f | | d f | l]; simpl; try done.
  - by destruct (extensions w !! n).
  - by destruct (temps w !! d).
Qed.

Lemma write_run p c w w' :
  Fs.put_file p c w = Some w' -> Fs.write p c w = (inr tt, w').
Proof. unfold Fs.write. by intros ->. Qed.

Lemma append_run p c0 c w w0 :
  Fs.put_file p c0 w = Some w0 ->
  Fs.append p c w0 = Fs.write p (c0 ++ c)%list w.
Proof.
  intros H. pose proof (put_file_again _ _ (c0 ++ c)%list _ _ H) as [Hp Hr].
  unfold Fs.append, Fs.write. rewrite Hr, Hp.
  destruct (Fs.put_file p (c0 ++ c)%list w) eqn:H1; [done |].
  apply (put_file_none _ _ c0) in H1. congruence.
Qed.

(** The pieces written one after the other, the empty ones passed over,
    make the file that one writing of the whole makes. *)
Lemma write_chunks_run p chunks c0 w w0 :
  Fs.put_file p c0 w = Some w0 ->
  for_each chunks
    (fun chunk => match chunk with
                  | [] => ret tt
                  | _ => Fs.append p chunk
                  end) w0
  = Fs.write p (c0 ++ concat chunks)%list w.
Proof.
  revert c0 w0. induction chunks as [| chunk chunks IH]; intros c0 w0 H; simpl.
  - rewrite app_nil_r. by rewrite (write_run _ _ _ _ H).
  - destruct chunk as [| b chunk].
    + unfold bind, ret. simpl. by apply IH.
    + unfold bind. rewrite (append_run _ _ _ _ _ H).
      destruct (Fs.put_file p (c0 ++ b :: chunk)%list w) as [w1 |] eqn:H1.
      * rewrite (write_run _ _ _ _ H1). rewrite (IH _ _ H1).
        by rewrite <- app_assoc.
      * apply (put_file_none _ _ c0) in H1. congruence.
Qed.

Lemma save_run p k body w :
  (0 < k)%nat ->
  bind (Fs.create p)
    (fun _ => for_each (iter_content k body)
                (fun chunk => match chunk with
                              | [] => ret tt
                              | _ => Fs.append p chunk
                              end)) w
  = Fs.write p body w.
Proof.
  intros Hk. unfold bind, Fs.create.
  destruct (Fs.put_file p [] w) as [w0 |] eqn:H.
  - rewrite (write_run _ _ _ _ H), (write_chunks_run _ _ _ _ _ H).
    simpl. by rewrite concat_iter_content.
  - unfold Fs.write. by rewrite H, (put_file_none _ _ body _ H).
Qed.

(* ===================================================================== *)
(** ** Names read from file names *)
(* ===================================================================== *)

Lemma shortest_name_nonempty pre rest l :
  Wheel.shortest_name pre rest = Some l -> l <> [].
Proof.
  revert pre. induction rest as [| c rest IH]; intros pre; simpl; [done |].
  destruct (PyStr.ascii_eqb c Wheel.newline); [done |].
  destruct (Regex.matches _ _).
  - intros [= <-]. simpl. intros H. by apply app_eq_nil in H as [_ ?].
  - apply IH.
Qed.

Lemma text_truthy l : l <> [] -> PyStr.truthy (PyStr.text l) = true.
Proof. by destruct l. Qed.

Lemma chars_text l : PyStr.chars (PyStr.text l) = l.
Proof. apply list_ascii_of_string_of_list_ascii. Qed.

(** A name that the pattern binds is never empty, nor is it after [_] has
    been turned into [-]. *)
Lemma extension_name_truthy f n :
  extension_name_of f = Some n -> PyStr.truthy n = true.
Proof.
  unfold extension_name_of, Wheel.WHEEL_INFO_RE.
  destruct (Wheel.shortest_name _ _) as [l |] eqn:E; simpl; [| done].
  intros [= <-]. apply shortest_name_nonempty in E.
  unfold PyStr.replace. rewrite chars_text. apply text_truthy.
  by destruct l.
Qed.

Lemma same_but_refl d w : same_but d w w.
Proof. by split. Qed.

Lemma same_but_trans d w1 w2 w3 :
  same_but d w1 w2 -> same_but d w2 w3 -> same_but d w1 w3.
Proof.
  intros [E1 T1 F1] [E2 T2 F2]. split; [congruence | | congruence].
  intros d' Hd. rewrite T2, T1; done.
Qed.

Lemma confined_ret {A} d (a : A) : confined d (ret a).
Proof. intros w res w' H. unfold ret in H. simplify_eq. apply same_but_refl. Qed.

Lemma confined_raise {A} d e : confined d (@raise A e).
Proof. intros w res w' H. unfold raise in H. simplify_eq. apply same_but_refl. Qed.

Lemma confined_lift {A} d (r : exn + A) : confined d (lift r).
Proof. intros w res w' H. unfold lift in H. simplify_eq. apply same_but_refl. Qed.

Lemma confined_gets {A} d (f : World -> A) : confined d (gets f).
Proof. intros w res w' H. unfold gets in H. simplify_eq. apply same_but_refl. Qed.

Lemma confined_log d e : confined d (modify (log e)).
Proof. intros w res w' H. unfold modify in H. simplify_eq. by split. Qed.

Lemma confined_bind {A B} d (m : M A) (k : A -> M B) :
  confined d m -> (forall a, confined d (k a)) -> confined d (bind m k).
Proof.
  intros Hm Hk w res w' H.
  apply bind_inv in H as [(a & w1 & H1 & H2) | (e & H1 & ->)].
  - eapply same_but_trans; [by eapply Hm | by eapply Hk].
  - by eapply Hm.
Qed.

Lemma confined_try {A} d (body : M A) h :
  confined d body ->
  (forall e hd, h e = Some hd -> confined d hd) ->
  confined d (try_except body h).
Proof.
  intros Hb Hh w res w' H.
  apply try_except_inv in H
    as [(a & H & ->) | [(e & H & _ & ->) | (e & w1 & hd & H & He & H2)]].
  - by eapply Hb.
  - by eapply Hb.
  - eapply same_but_trans; [by eapply Hb | by eapply Hh].
Qed.

Lemma confined_read d p : confined d (Fs.read p).
Proof.
  intros w res w' H. rewrite read_run in H.
  destruct (Fs.read_file p w); simplify_eq; apply same_but_refl.
Qed.

Lemma confined_isfile d p : confined d (Fs.isfile p).
Proof. apply confined_gets. Qed.

Lemma confined_write d f c : confined d (Fs.write (TmpSub d f) c).
Proof.
  intros w res w' H. unfold Fs.write, Fs.put_file in H.
  destruct (temps w !! d); simplify_eq; [| apply same_but_refl].
  split; [done | | done]. intros d' Hd. simpl. by rewrite lookup_insert_ne.
Qed.

Lemma confined_create d f : confined d (Fs.create (TmpSub d f)).
Proof. apply confined_write. Qed.

Lemma confined_append d f c : confined d (Fs.append (TmpSub d f) c).
Proof.
  intros w res w' H. unfold Fs.append, Fs.put_file in H. simpl in H.
  destruct (temps w !! d) as [td |]; simpl in H; [| simplify_eq; apply same_but_refl].
  destruct (tmp_files td !! f); simplify_eq; [| apply same_but_refl].
  split; [done | | done]. intros d' Hd. simpl. by rewrite lookup_insert_ne.
Qed.

Lemma confined_for_each {A} d (l : list A) body :
  (forall a, confined d (body a)) -> confined d (for_each l body).
Proof.
  intros Hb. induction l as [| a l IH]; simpl; [apply confined_ret |].
  apply confined_bind; [apply Hb | by intros _].
Qed.

Lemma confined_extractall d t : confined d (Fs.extractall t (TmpDir d)).
Proof.
  intros w res w' H. unfold Fs.extractall in H.
  destruct (temps w !! d); simplify_eq; [| apply same_but_refl].
  split; [done | | done]. intros d' Hd. simpl. by rewrite lookup_insert_ne.
Qed.

Lemma confined_rmtree d b : confined d (Fs.rmtree (TmpDir d) b).
Proof.
  intros w res w' H. unfold Fs.rmtree in H.
  destruct (Fs.read_dir _ w); [| destruct b]; simplify_eq;
    try apply same_but_refl.
  split; [done | | done]. intros d' Hd. simpl. by rewrite lookup_delete_ne.
Qed.

(** What is confined to a directory made on the spot is quiet. *)
Lemma quiet_with_new_temp {A} (k : path -> M A) w res w' :
  (forall d, confined d (k (TmpDir d))) ->
  bind Fs.mkdtemp k w = (res, w') -> quiet w w'.
Proof.
  intros Hk. rewrite (bind_ok _ _ _ _ _ (mkdtemp_run w)). intros H.
  apply Hk in H as [E T F]. simpl in *.
  split; [done | | done]. intros d td Hd.
  rewrite T.
  - rewrite lookup_insert_ne; [done |]. intros <-.
    by rewrite fresh_temp_none in Hd.
  - intros ->. by rewrite fresh_temp_none in Hd.
Qed.

Create HintDb confined discriminated.
#[local] Hint Resolve confined_ret confined_raise confined_lift confined_gets
  confined_log confined_read confined_isfile confined_write
  confined_create confined_append confined_extractall confined_rmtree
  : confined.

Ltac confine :=
  repeat first
    [ apply confined_bind; [| intros ?]
    | apply confined_try; [| intros ? ? ?]
    | apply confined_for_each; intros ?
    | solve [auto with confined]
    | match goal with
      | H : match ?e with _ => _ end = Some _ |- _ => destruct e; simplify_eq
      | |- confined _ (if ?b then _ else _) => destruct b
      | |- confined _ (match ?x with _ => _ end) => destruct x
      end ].

(* ===================================================================== *)
(** ** The stages of an installation *)
(* ===================================================================== *)

Section Stages.

Variable C : Collab.

(** Downloading touches one new temporary directory, nothing else. *)
Lemma fetch_url_quiet r f w res w' :
  fetch_url C r f w = (res, w') -> quiet w w'.
Proof.
  apply quiet_with_new_temp. intros d. simpl.
  unfold _whl_download_from_url. confine.
Qed.

Lemma fetch_local_quiet s w res w' :
  fetch_local C s w = (res, w') -> quiet w w'.
Proof.
  unfold fetch_local, Fs.isfile, gets, bind, raise, ret.
  destruct (negb _); intros; simplify_eq; apply quiet_refl.
Qed.

Lemma check_sha256_same p d w res w' :
  check_sha256 p d w = (res, w') -> w' = w.
Proof.
  unfold check_sha256, is_valid_sha256sum, bind, ret, raise.
  destruct (PyStr.truthy_opt d); [| by intros; simplify_eq].
  rewrite read_run. destruct (Fs.read_file p w); simpl;
    [destruct (String.eqb _ _) |]; by intros; simplify_eq.
Qed.

Lemma validate_whl_cli_compat_confined d m :
  confined d (_validate_whl_cli_compat C m).
Proof.
  unfold _validate_whl_cli_compat.
  destruct (ext_compat_with_cli C m) as [[[ok v] mn] mx].
  destruct (negb ok); auto with confined.
Qed.

Lemma validate_quiet p w res w' :
  validate C p w = (res, w') -> quiet w w'.
Proof.
  unfold validate. intros H.
  apply try_except_inv in H
    as [(a & H & ->) | [(e & H & _ & ->) | (e & w1 & hd & H & He & H2)]].
  1,2: revert H; apply quiet_with_new_temp; intros d; simpl;
       pose proof validate_whl_cli_compat_confined; confine.
  assert (quiet w w1) as Hq.
  { revert H; apply quiet_with_new_temp; intros d; simpl;
    pose proof validate_whl_cli_compat_confined; confine. }
  destruct e; simplify_eq; unfold raise in H2; by simplify_eq.
Qed.

Lemma run_pip_run n p w :
  _run_pip C (ExtDir n) p w
  = let r := pip_install C (Fs.name_of p) (Fs.read_file p w)
                         (extensions w !! n) in
    (inr (fst r),
     log (PipInstall n (Fs.name_of p))
         (set_extensions (match snd r with
                          | Some t => <[n := t]>
                          | None => delete n
                          end) w)).
Proof.
  unfold _run_pip.
  destruct (pip_install C _ _ _) as [rc produced]; simpl.
  destruct (Z.eqb_spec rc 0); by subst.
Qed.

(** The installation step, told by the answer of the installer, when the
    artifact is where it is said to be. *)
Lemma install_run n f p w data :
  artifact_path p ->
  Fs.read_file p w = Some data ->
  install C n f p w
  = let r := pip_install C (Fs.name_of p) (Some data) (extensions w !! n) in
    let wp := log (PipInstall n (Fs.name_of p)) w in
    if fst r >? 0
    then (inl (Kind.InstallationFailed (fst r)), set_extensions (delete n) wp)
    else match snd r with
         | Some t => (inr tt, set_extensions <[n := <[f := data]> t]> wp)
         | None => (inl (OSError "No such file or directory"),
                    set_extensions (delete n) wp)
         end.
Proof.
  intros Hp Hr. unfold install, bind. rewrite run_pip_run, Hr. simpl.
  destruct (pip_install C _ _ _) as [rc produced]; simpl.
  destruct (rc >? 0).
  - unfold Fs.rmtree, raise; simpl.
    destruct produced as [t |]; simpl.
    + rewrite lookup_insert_eq. unfold set_extensions, log; simpl.
      by rewrite delete_insert_eq.
    + rewrite lookup_delete_eq. done.
  - unfold Fs.copyfile. rewrite read_file_log, read_file_set_extensions, Hr by done.
    unfold Fs.put_file; simpl. destruct produced as [t |]; simpl.
    + rewrite lookup_insert_eq. unfold set_extensions, log; simpl.
      by rewrite insert_insert_eq.
    + by rewrite lookup_delete_eq.
Qed.


Lemma install_success n f p w data w' :
  artifact_path p -> Fs.read_file p w = Some data ->
  install C n f p w = (inr tt, w') ->
  exists t,
    snd (pip_install C (Fs.name_of p) (Some data) (extensions w !! n)) = Some t
    /\ fst (pip_install C (Fs.name_of p) (Some data) (extensions w !! n)) <= 0
    /\ extensions w' = <[n := <[f := data]> t]> (extensions w)
    /\ temps w' = temps w /\ files w' = files w.
Proof.
  intros Hp Hr. rewrite (install_run _ _ _ _ _ Hp Hr). simpl.
  destruct (Z.gtb_spec
              (fst (pip_install C (Fs.name_of p) (Some data) (extensions w !! n)))
              0);
    [by intros; simplify_eq |].
  destruct (snd _) as [t |] eqn:Ht; intros; simplify_eq.
  exists t. by repeat split.
Qed.

Lemma add_whl_ext_resolved source sha r n w :
  PyStr.endswith source ".whl" = true ->
  Url.urlparse source = inr r ->
  extension_name_of (whl_filename_of source r) = Some n ->
  extensions w !! n = None ->
  _add_whl_ext C (Some source) sha w = pipeline C source r n sha w.
Proof.
  intros He Hu Hn Hw. unfold _add_whl_ext. rewrite He. simpl.
  unfold bind at 1, lift. rewrite Hu, Hn.
  rewrite (extension_name_truthy _ _ Hn). simpl.
  unfold bind at 1, extension_exists, gets. rewrite Hw.
  rewrite bool_decide_eq_false_2; [done |]. by intros [? ?].
Qed.

(** When the name cannot be resolved or is taken, nothing has been done. *)
Lemma add_whl_ext_cases source sha w :
  (exists e, _add_whl_ext C (Some source) sha w = (inl e, w))
  \/ (exists r n,
        PyStr.endswith source ".whl" = true
        /\ Url.urlparse source = inr r
        /\ extension_name_of (whl_filename_of source r) = Some n
        /\ extensions w !! n = None
        /\ _add_whl_ext C (Some source) sha w = pipeline C source r n sha w).
Proof.
  destruct (PyStr.endswith source ".whl") eqn:He.
  2: { left. eexists. unfold _add_whl_ext. by rewrite He. }
  destruct (Url.urlparse source) as [e | r] eqn:Hu.
  { left. exists e. unfold _add_whl_ext. rewrite He. simpl.
    unfold bind, lift. by rewrite Hu. }
  destruct (extension_name_of (whl_filename_of source r)) as [n |] eqn:Hn.
  2: { left. eexists. unfold _add_whl_ext. rewrite He. simpl.
       unfold bind, lift. by rewrite Hu, Hn. }
  destruct (extensions w !! n) as [t |] eqn:Hw.
  { left. eexists. unfold _add_whl_ext. rewrite He. simpl.
    unfold bind at 1, lift. rewrite Hu, Hn.
    rewrite (extension_name_truthy _ _ Hn). simpl.
    unfold bind, extension_exists, gets. rewrite Hw.
    by rewrite bool_decide_eq_true_2. }
  right. exists r, n. eauto 6 using add_whl_ext_resolved.
Qed.

Lemma fetch_local_run s w :
  fetch_local C s w
  = match files w !! realpath C s with
    | Some _ => (inr (Local (realpath C s)), w)
    | None => (inl (Kind.FileNotFound s), w)
    end.
Proof.
  unfold fetch_local, bind, Fs.isfile, gets. simpl.
  by destruct (files w !! realpath C s).
Qed.

Lemma quiet_read_file w w' p data :
  quiet w w' -> artifact_path p ->
  Fs.read_file p w = Some data -> Fs.read_file p w' = Some data.
Proof.
  intros [E T F] Hp. destruct p as [| | | d f |]; simpl; try done.
  - destruct (temps w !! d) as [td |] eqn:Hd; [| done].
    by rewrite (T _ _ Hd).
  - by rewrite F.
Qed.

(** The download, told by the exchange: nothing is written before the
    status has been seen to be 200, and a stream that breaks leaves what
    had come. *)
Lemma download_run r p w :
  _whl_download_from_url C r p w
  = let w1 := log (HttpGet (Url.geturl r)) w in
    match requests_get C (Url.geturl r) with
    | inl (Refused e) => (inl e, w1)
    | inl (Interrupted rsp e) =>
        if status_code rsp =? 200
        then (Fs.write p (content rsp) ;; raise e) w1
        else (inl (Kind.RequestFailed (Url.geturl r) (status_code rsp)), w1)
    | inr rsp =>
        if status_code rsp =? 200
        then Fs.write p (content rsp) w1
        else (inl (Kind.RequestFailed (Url.geturl r) (status_code rsp)), w1)
    end.
Proof.
  unfold _whl_download_from_url. unfold bind at 1, modify.
  unfold bind at 1, lift.
  destruct (requests_get C (Url.geturl r)) as [[e | rsp e] | rsp]; simpl;
    [done | |]; (destruct (status_code rsp =? 200); simpl; [| done]).
  - set (w1 := log _ w).
    pose proof (save_run p 1024 (content rsp) w1 ltac:(lia)) as H.
    unfold bind in *.
    destruct (Fs.create p w1) as [[e' | []] w2]; [by rewrite <- H |].
    by rewrite H.
  - set (w1 := log _ w).
    pose proof (save_run p 1024 (content rsp) w1 ltac:(lia)) as H.
    unfold bind in *.
    destruct (Fs.create p w1) as [[e' | []] w2]; [by rewrite <- H |].
    rewrite H. by destruct (Fs.write p (content rsp) w1) as [[e' | []] w3].
Qed.

(** What has been fetched is a file that is there. *)
Lemma fetch_path source r w p w' :
  (if is_url r then fetch_url C r (whl_filename_of source r)
   else fetch_local C source) w = (inr p, w') ->
  artifact_path p /\ is_Some (Fs.read_file p w').
Proof.
  destruct (is_url r).
  - unfold fetch_url. rewrite (bind_ok _ _ _ _ _ (mkdtemp_run w)).
    intros H. apply bind_inv in H as [(a & w1 & H & Hk) | (e & _ & ?)]; [| done].
    unfold ret in Hk. simplify_eq. split; [done |].
    apply try_except_inv in H
      as [(a' & H & _) | [(e & H & _ & ?) | (e & w3 & hd & H & He & H2)]];
      [| done |].
    + revert H. rewrite download_run. simpl.
      destruct (requests_get C _) as [[e | rsp e] | rsp]; [done | |].
      { destruct (_ =? 200); [| done]. unfold bind, raise.
        by destruct (Fs.write _ _ _) as [[? | ?] ?]. }
      destruct (_ =? 200); [| done].
      unfold Fs.write, Fs.put_file. simpl. rewrite lookup_insert_eq.
      intros; simplify_eq. simpl. rewrite !lookup_insert_eq. simpl.
      rewrite lookup_insert_eq. by eexists.
    + destruct e; simplify_eq; unfold raise in H2; simplify_eq.
  - rewrite fetch_local_run.
    destruct (files w !! realpath C source) eqn:Hf; intros; simplify_eq.
    split; [done |]. simpl. rewrite Hf. by eexists.
Qed.

Lemma fetch_quiet source r w res w' :
  (if is_url r then fetch_url C r (whl_filename_of source r)
   else fetch_local C source) w = (res, w') ->
  quiet w w'.
Proof. destruct (is_url r); eauto using fetch_url_quiet, fetch_local_quiet. Qed.

(** A run of the pipeline either stops before the installer, having changed
    nothing but temporary directories of its own, or reaches it. *)
Lemma pipeline_inv source r n sha w res w' :
  pipeline C source r n sha w = (res, w') ->
  (exists e, res = inl e /\ quiet w w')
  \/ (exists p w1 data,
        artifact_path p /\ Fs.read_file p w1 = Some data /\ quiet w w1
        /\ install C n (whl_filename_of source r) p w1 = (res, w')).
Proof.
  unfold pipeline. intros H.
  apply bind_inv in H as [(p & w1 & Hf & H) | (e & Hf & ->)].
  2: { left. exists e. eauto using fetch_quiet. }
  pose proof (fetch_path _ _ _ _ _ Hf) as [Hp [data Hd]].
  pose proof (fetch_quiet _ _ _ _ _ Hf) as Hq1.
  apply bind_inv in H as [([] & w2 & Hc & H) | (e & Hc & ->)].
  2: { left. exists e. apply check_sha256_same in Hc as ->. eauto. }
  apply check_sha256_same in Hc as ->.
  apply bind_inv in H as [([] & w3 & Hv & H) | (e & Hv & ->)].
  2: { left. exists e. eauto using quiet_trans, validate_quiet. }
  right. exists p, w3, data.
  pose proof (validate_quiet _ _ _ _ Hv) as Hq2.
  eauto 6 using quiet_trans, quiet_read_file.
Qed.


(** A successful installation puts one new directory in the store, under
    the name read from the file name: what the installer left there and a
    copy of the artifact. *)
Lemma add_whl_ext_success source sha w w' :
  _add_whl_ext C (Some source) sha w = (inr tt, w') ->
  exists r n data t,
    Url.urlparse source = inr r
    /\ extension_name_of (whl_filename_of source r) = Some n
    /\ extensions w !! n = None
    /\ extensions w' = <[n := <[whl_filename_of source r := data]> t]> (extensions w)
    /\ temps_kept w w' /\ files w' = files w.
Proof.
  destruct (add_whl_ext_cases source sha w)
    as [(e' & ->) | (r & n & _ & Hu & Hn & Hw & ->)]; [done |].
  intros H.
  apply pipeline_inv in H as [(? & ? & _) | (p & w1 & data & Hp & Hd & Hq & H)];
    [done |].
  eapply install_success in H as (t & _ & _ & E & T & F); [| done | done].
  destruct Hq as [E1 T1 F1].
  exists r, n, data, t. repeat split; try done; try congruence.
  intros d td Hd'. rewrite T. by apply T1.
Qed.

End Stages.

(* ===================================================================== *)
(** ** Update *)
(* ===================================================================== *)

Section Update.

Variable C : Collab.

Lemma update_extension_no_candidate n idx w t e :
  extensions w !! n = Some t ->
  resolve_from_index C n (Some (get_version C t)) idx = inl e ->
  exists e',
    update_extension C n idx w
    = (inl e', log (IndexQuery n (Some (get_version C t)) idx) w)
    /\ (forall m, e = NoExtensionCandidatesError m ->
                  e' = Kind.NoUpdateAvailable n).
Proof.
  intros Hn Hr. unfold update_extension, try_except at 1, bind at 1.
  unfold get_extension. rewrite Hn. unfold bind at 1.
  unfold try_except at 1, bind at 1, modify, lift. rewrite Hr.
  destruct e; simpl; eauto; try (eexists; split; [reflexivity | intros; done]).
Qed.

Lemma update_extension_candidate n idx w t url sha :
  extensions w !! n = Some t ->
  resolve_from_index C n (Some (get_version C t)) idx = inr (url, sha) ->
  update_extension C n idx w
  = try_except (swap C n (get_version C t) url sha w)
      (fun e =>
         match e with
         | ExtensionNotInstalledException _ =>
             Some (raise (CLIError (str_exn e)))
         | _ => None
         end)
      (staged n (get_version C t) idx t w).
Proof.
  intros Hn Hr. unfold update_extension, try_except at 1, bind at 1.
  unfold get_extension. rewrite Hn. unfold bind at 1.
  unfold try_except at 1, bind at 1, modify, lift. rewrite Hr. simpl.
  set (w1 := log _ w).
  rewrite (bind_ok _ _ _ _ _ (mkdtemp_run w1)).
  change (temps w1) with (temps w).
  set (d := fresh (dom (temps w))).
  unfold bind at 1, Fs.copytree. simpl. rewrite Hn.
  unfold Fs.path_exists. simpl. rewrite lookup_insert_eq. simpl.
  rewrite !lookup_empty. simpl.
  unfold temp_or_empty. simpl. rewrite lookup_insert_eq. simpl.
  unfold bind at 1, Fs.rmtree. simpl. rewrite Hn.
  unfold staged, swap, backup_dir_of, try_except, set_temps, set_extensions, log.
  simpl. fold d. rewrite insert_insert_eq. rewrite insert_empty. reflexivity.
Qed.


End Update.

(** C9. When the index has no candidate newer than the installed version
    (the resolver raises [NoExtensionCandidatesError]), [update_extension]
    fails with NoUpdateAvailable and nothing on disk has changed: no backup
    was made, no directory was removed. Only the query is on record. *)
Theorem update_without_candidate (C : Collab) (n : string)
    (idx : option string) (w : World) (t : Tree) (msg : string) :
  extensions w !! n = Some t ->
  resolve_from_index C n (Some (get_version C t)) idx
  = inl (NoExtensionCandidatesError msg) ->
  outcome (update_extension C n idx w) = inl (Kind.NoUpdateAvailable n)
  /\ extensions (after (update_extension C n idx w)) = extensions w
  /\ temps (after (update_extension C n idx w)) = temps w
  /\ files (after (update_extension C n idx w)) = files w.
Proof.
  intros Hn Hr.
  destruct (update_extension_no_candidate C n idx w t _ Hn Hr) as (e' & -> & He).
  rewrite (He msg eq_refl). done.
Qed.

(* ===================================================================== *)
(** ** Add *)
(* ===================================================================== *)

(** C10. [add_extension] with the name of an installed extension raises
    AlreadyExists and leaves the world as it was, the record of external
    calls included: the index has not been queried. *)
Theorem add_installed_name_skips_index (C : Collab) (source : option string)
    (n : string) (idx : option string) (w : World) :
  n <> "" ->
  installed n w = true ->
  add_extension C source (Some n) idx w = (inl (Kind.AlreadyExists n), w)
  /\ calls (after (add_extension C source (Some n) idx w)) = calls w.
Proof.
  intros Hne Hi. unfold add_extension. simpl.
  assert (PyStr.truthy n = true) as -> by (by destruct n).
  unfold bind, extension_exists, gets. unfold installed in Hi.
  by rewrite Hi.
Qed.



(* ===================================================================== *)
(** ** The installer *)
(* ===================================================================== *)

(** C3, on the code. The installation step fails with InstallationFailed,
    after the destination has been deleted, exactly when the return code of
    the installer is positive. With a positive code the failure and the
    cleanup are as the design says. With a negative code (a subprocess
    ended by a signal) the test [pip_status_code > 0] does not see the
    failure: the step goes on, copies the artifact into what the installer
    left and returns normally. *)
Theorem install_sees_positive_status_only (C : Collab) (n f : string)
    (p : path) (w : World) (data : Bytes) (code : Z) (produced : option Tree) :
  artifact_path p ->
  Fs.read_file p w = Some data ->
  pip_install C (Fs.name_of p) (Some data) (extensions w !! n)
  = (code, produced) ->
  (code > 0 ->
     outcome (install C n f p w) = inl (Kind.InstallationFailed code)
     /\ extensions (after (install C n f p w)) !! n = None)
  /\ (code < 0 -> forall t, produced = Some t ->
        outcome (install C n f p w) = inr tt
        /\ extensions (after (install C n f p w)) !! n = Some (<[f := data]> t)).
Proof.
  intros Hp Hr Hpip. rewrite (install_run _ _ _ _ _ _ Hp Hr), Hpip. simpl.
  split.
  - intros Hc. destruct (Z.gtb_spec code 0); [| lia]. simpl.
    split; [done | apply lookup_delete_eq].
  - intros Hc t ->. destruct (Z.gtb_spec code 0); [lia |]. simpl.
    split; [done | apply lookup_insert_eq].
Qed.

(* ===================================================================== *)
(** ** Validation *)
(* ===================================================================== *)

Section Validation.

Variable C : Collab.

Lemma validate_whl_extension_run p w :
  _validate_whl_extension C p w
  = let d := fresh (dom (temps w)) in
    let w1 := set_temps <[d := empty_temp]> w in
    match Fs.read_file p w1 with
    | None => (inl (OSError "No such file or directory"), w1)
    | Some data =>
        match zip_members C data with
        | None => (inl (BadZipFile "File is not a zip file"), w1)
        | Some members =>
            match get_azext_metadata C members with
            | inl e => (inl e, extracted_into w members)
            | inr metadata =>
                _validate_whl_cli_compat C metadata (set_temps (delete d) w)
            end
        end
    end.
Proof.
  unfold _validate_whl_extension.
  rewrite (bind_ok _ _ _ _ _ (mkdtemp_run w)). simpl.
  set (d := fresh (dom (temps w))). set (w1 := set_temps _ w).
  unfold bind at 1. rewrite read_run.
  destruct (Fs.read_file p w1) as [data |]; [| done].
  unfold bind at 1, lift.
  destruct (zip_members C data) as [members |]; [| done].
  unfold bind at 1, Fs.extractall. subst w1. simpl.
  rewrite lookup_insert_eq. simpl.
  unfold bind at 1, gets. simpl. rewrite lookup_insert_eq. simpl.
  rewrite (right_id_L ∅ (∪) members).
  unfold bind at 1, lift.
  destruct (get_azext_metadata C _) as [e | metadata].
  { unfold extracted_into, set_temps. simpl. fold d.
    by rewrite insert_insert_eq. }
  unfold bind at 1, Fs.rmtree. simpl. rewrite lookup_insert_eq. simpl.
  unfold set_temps. simpl. fold d.
  by rewrite insert_insert_eq, delete_insert_eq.
Qed.

Lemma read_file_new_temp p w data :
  Fs.read_file p w = Some data ->
  Fs.read_file p (set_temps <[fresh (dom (temps w)) := empty_temp]> w)
  = Some data.
Proof.
  destruct p as [| | | d f |]; simpl; try done.
  intros H. rewrite lookup_insert_ne; [done |]. intros <-.
  by rewrite fresh_temp_none in H.
Qed.

End Validation.

(** C5, on the code. [_validate_whl_extension] removes the directory it
    extracts into only once the metadata has been read: then the
    directory is gone whether the compatibility test passes or fails.
    When the file is no zip archive, or when the metadata reader raises,
    the exception leaves the function before [shutil.rmtree] and the
    directory stays. *)
Theorem extraction_directory_cleanup (C : Collab) (p : path) (w : World)
    (data : Bytes) :
  Fs.read_file p w = Some data ->
  let d := fresh (dom (temps w)) in
  let r := _validate_whl_extension C p w in
  (zip_members C data = None ->
     outcome r = inl (BadZipFile "File is not a zip file")
     /\ temps (after r) !! d = Some empty_temp)
  /\ (forall members e,
        zip_members C data = Some members ->
        get_azext_metadata C members = inl e ->
        outcome r = inl e
        /\ temps (after r) !! d
           = Some {| tmp_files := members; tmp_dirs := ∅ |})
  /\ (forall members metadata,
        zip_members C data = Some members ->
        get_azext_metadata C members = inr metadata ->
        temps (after r) = temps w).
Proof.
  intros Hr d r. subst r. rewrite validate_whl_extension_run. simpl.
  rewrite (read_file_new_temp _ _ _ Hr). fold d. split; [| split].
  - intros ->. simpl. split; [done | apply lookup_insert_eq].
  - intros members e -> ->. simpl. split; [done | apply lookup_insert_eq].
  - intros members metadata -> ->.
    unfold _validate_whl_cli_compat.
    destruct (ext_compat_with_cli C metadata) as [[[ok v] mn] mx].
    destruct (negb ok); simpl; apply delete_id, fresh_temp_none.
Qed.

(** C6, on the code. Of the corrupt archives, the one without its module
    (the metadata reader raises [AssertionError]) fails as an invalid
    extension. The one that is no zip archive fails with the [BadZipFile]
    of the zip reader, which no [except] clause of the validation step
    names: it reaches the caller as it is. *)
Theorem corrupt_archive_classification (C : Collab) (p : path) (w : World)
    (data : Bytes) :
  Fs.read_file p w = Some data ->
  (zip_members C data = None ->
     outcome (validate C p w) = inl (BadZipFile "File is not a zip file")
     /\ outcome (validate C p w) <> inl Kind.InvalidArtifact)
  /\ (forall members msg,
        zip_members C data = Some members ->
        get_azext_metadata C members = inl (AssertionError msg) ->
        outcome (validate C p w) = inl Kind.InvalidArtifact).
Proof.
  intros Hr. unfold validate, try_except.
  rewrite validate_whl_extension_run. simpl.
  rewrite (read_file_new_temp _ _ _ Hr). split.
  - intros ->. done.
  - intros members msg -> ->. done.
Qed.

(* ===================================================================== *)
(** ** Checksums *)
(* ===================================================================== *)

Lemma compress_length h block :
  length h = 8%nat -> length (Sha256.compress h block) = 8%nat.
Proof.
  intros Hh. unfold Sha256.compress.
  rewrite length_map, length_combine, Hh. done.
Qed.

Lemma digest_length msg : length (Sha256.digest msg) = 8%nat.
Proof.
  unfold Sha256.digest. generalize (Sha256.pad msg). intros p.
  generalize (Sha256.blocks (length p) (Sha256.words (length p) p)).
  intros bs. assert (length Sha256.H0 = 8%nat) as H by done.
  revert H. generalize Sha256.H0. induction bs as [| b bs IH]; intros h Hh.
  - done.
  - simpl. apply IH. by apply compress_length.
Qed.

(** A digest is never the empty string. *)
Lemma hexdigest_truthy msg : PyStr.truthy (Sha256.hexdigest msg) = true.
Proof.
  unfold Sha256.hexdigest. pose proof (digest_length msg) as H.
  destruct (Sha256.digest msg) as [| x l]; [done |]. done.
Qed.

Lemma check_sha256_run p d w data :
  Fs.read_file p w = Some data ->
  PyStr.truthy d = true ->
  check_sha256 p (Some d) w
  = if String.eqb d (Sha256.hexdigest data) then (inr tt, w)
    else (inl Kind.ChecksumMismatch, w).
Proof.
  intros Hr Hd. unfold check_sha256, is_valid_sha256sum. simpl. rewrite Hd.
  unfold bind at 1. unfold bind at 1. rewrite read_run, Hr. simpl.
  by destruct (String.eqb _ _).
Qed.

(** C4. For every artifact and every provided (non-empty, as the test
    [if ext_sha256:] reads it) expected digest [d], [is_valid_sha256sum]
    computes the SHA-256 hexadecimal digest of the whole file and compares
    it with [d]; the checksum test passes if and only if the two are equal
    and fails with ChecksumMismatch otherwise, the world untouched. The
    digest of a file is never empty, and an artifact with one bit flipped,
    tested against the digest of the original, fails with ChecksumMismatch
    as soon as the flip changes the digest. *)
Theorem checksum_validation (p : path) (w : World) (data : Bytes)
    (d : string) :
  Fs.read_file p w = Some data ->
  d <> "" ->
  is_valid_sha256sum p d w
  = (inr (String.eqb d (Sha256.hexdigest data), Sha256.hexdigest data), w)
  /\ (outcome (check_sha256 p (Some d) w) = inr tt
      <-> Sha256.hexdigest data = d)
  /\ (Sha256.hexdigest data <> d ->
      check_sha256 p (Some d) w = (inl Kind.ChecksumMismatch, w))
  /\ (forall i w',
        Fs.read_file p w' = Some (flip_bit i data) ->
        Sha256.hexdigest (flip_bit i data) <> Sha256.hexdigest data ->
        check_sha256 p (Some (Sha256.hexdigest data)) w'
        = (inl Kind.ChecksumMismatch, w')).
Proof.
  intros Hr Hd.
  assert (PyStr.truthy d = true) as Ht by (by destruct d).
  split; [| split; [| split]].
  - unfold is_valid_sha256sum, bind, ret. by rewrite read_run, Hr.
  - rewrite (check_sha256_run _ _ _ _ Hr Ht).
    destruct (String.eqb_spec d (Sha256.hexdigest data)); simpl;
      split; intros; by simplify_eq.
  - intros Hne. rewrite (check_sha256_run _ _ _ _ Hr Ht).
    destruct (String.eqb_spec d (Sha256.hexdigest data)); by simplify_eq.
  - intros i w' Hr' Hne.
    rewrite (check_sha256_run _ _ _ _ Hr' (hexdigest_truthy data)).
    destruct (String.eqb_spec (Sha256.hexdigest data)
                              (Sha256.hexdigest (flip_bit i data)));
      by simplify_eq.
Qed.

(* ===================================================================== *)
(** ** External calls *)
(* ===================================================================== *)

Lemma emits_silent {A} P (m : M A) :
  (forall w res w', m w = (res, w') -> calls w' = calls w) -> emits P m.
Proof.
  intros H w res w' Hm. exists []. rewrite app_nil_r. eauto.
Qed.

Lemma emits_ret {A} P (a : A) : emits P (ret a).
Proof. apply emits_silent. unfold ret. by intros; simplify_eq. Qed.

Lemma emits_raise {A} P e : emits P (@raise A e).
Proof. apply emits_silent. unfold raise. by intros; simplify_eq. Qed.

Lemma emits_lift {A} P (r : exn + A) : emits P (lift r).
Proof. apply emits_silent. unfold lift. by intros; simplify_eq. Qed.

Lemma emits_gets {A} P (f : World -> A) : emits P (gets f).
Proof. apply emits_silent. unfold gets. by intros; simplify_eq. Qed.

Lemma emits_log (P : Event -> Prop) e : P e -> emits P (modify (log e)).
Proof.
  intros He w res w' H. unfold modify in H. simplify_eq.
  exists [e]. split; [done | by constructor].
Qed.

Lemma emits_bind {A B} P (m : M A) (k : A -> M B) :
  emits P m -> (forall a, emits P (k a)) -> emits P (bind m k).
Proof.
  intros Hm Hk w res w' H.
  apply bind_inv in H as [(a & w1 & H1 & H2) | (e & H1 & ->)].
  - apply Hm in H1 as (l1 & E1 & F1). apply Hk in H2 as (l2 & E2 & F2).
    exists (l1 ++ l2)%list. rewrite E2, E1, app_assoc.
    split; [done | by apply Forall_app].
  - by eapply Hm.
Qed.

Lemma emits_try {A} P (body : M A) h :
  emits P body ->
  (forall e hd, h e = Some hd -> emits P hd) ->
  emits P (try_except body h).
Proof.
  intros Hb Hh w res w' H.
  apply try_except_inv in H
    as [(a & H & ->) | [(e & H & _ & ->) | (e & w1 & hd & H & He & H2)]].
  - by eapply Hb.
  - by eapply Hb.
  - apply Hb in H as (l1 & E1 & F1). eapply Hh in H2 as (l2 & E2 & F2); [| done].
    exists (l1 ++ l2)%list. rewrite E2, E1, app_assoc.
    split; [done | by apply Forall_app].
Qed.

Lemma emits_mkdtemp P : emits P Fs.mkdtemp.
Proof. apply emits_silent. unfold Fs.mkdtemp. by intros; simplify_eq. Qed.

Lemma emits_read P p : emits P (Fs.read p).
Proof.
  apply emits_silent. intros w res w'. rewrite read_run.
  destruct (Fs.read_file p w); by intros; simplify_eq.
Qed.

Lemma put_file_calls p c w w' : Fs.put_file p c w = Some w' -> calls w' = calls w.
Proof.
  destruct p; simpl; try done.
  - destruct (extensions w !! name); by intros; simplify_eq.
  - destruct (temps w !! d); by intros; simplify_eq.
  - by intros; simplify_eq.
Qed.

Lemma emits_write P p c : emits P (Fs.write p c).
Proof.
  apply emits_silent. intros w res w'. unfold Fs.write.
  destruct (Fs.put_file p c w) eqn:E; intros; simplify_eq; [| done].
  by eapply put_file_calls.
Qed.

Lemma emits_create P p : emits P (Fs.create p).
Proof. apply emits_write. Qed.

Lemma emits_append P p c : emits P (Fs.append p c).
Proof.
  apply emits_silent. intros w res w'. unfold Fs.append.
  destruct (Fs.read_file p w); [| by intros; simplify_eq].
  destruct (Fs.put_file p _ w) eqn:E; intros; simplify_eq; [| done].
  by eapply put_file_calls.
Qed.

Lemma emits_for_each {A} P (l : list A) body :
  (forall a, emits P (body a)) -> emits P (for_each l body).
Proof.
  intros Hb. induction l as [| a l IH]; simpl; [apply emits_ret |].
  apply emits_bind; [apply Hb | by intros _].
Qed.

Lemma emits_copyfile P p q : emits P (Fs.copyfile p q).
Proof.
  apply emits_silent. intros w res w'. unfold Fs.copyfile.
  destruct (Fs.read_file p w); [| by intros; simplify_eq].
  destruct (Fs.put_file q _ w) eqn:E; intros; simplify_eq; [| done].
  by eapply put_file_calls.
Qed.

Lemma emits_extractall P t p : emits P (Fs.extractall t p).
Proof.
  apply emits_silent. intros w res w'. unfold Fs.extractall.
  destruct p; try (by intros; simplify_eq).
  destruct (temps w !! d); by intros; simplify_eq.
Qed.

Lemma emits_rmtree P p b : emits P (Fs.rmtree p b).
Proof.
  apply emits_silent. intros w res w'. unfold Fs.rmtree.
  destruct (Fs.read_dir p w); [| destruct b]; intros; simplify_eq; try done.
  destruct p; simpl; try done. by destruct (temps w !! d).
Qed.

Create HintDb emits discriminated.
#[local] Hint Resolve emits_ret emits_raise emits_lift emits_gets
  emits_mkdtemp emits_read emits_write emits_create emits_append
  emits_copyfile emits_extractall emits_rmtree : emits.

Ltac emit :=
  repeat first
    [ apply emits_bind; [| intros ?]
    | apply emits_try; [| intros ? ? ?]
    | apply emits_for_each; intros ?
    | solve [auto with emits]
    | apply emits_log
    | match goal with
      | H : match ?e with _ => _ end = Some _ |- _ => destruct e; simplify_eq
      | |- emits _ (if ?b then _ else _) => destruct b
      | |- emits _ (match ?x with _ => _ end) => destruct x
      end ].

Section Calls.

Variable C : Collab.

Lemma emits_validate P p : emits P (validate C p).
Proof.
  unfold validate, _validate_whl_extension, _validate_whl_cli_compat.
  emit.
Qed.

Lemma emits_check_sha256 P p d : emits P (check_sha256 p d).
Proof.
  apply emits_silent. intros w res w' H.
  by apply check_sha256_same in H as ->.
Qed.

Lemma emits_install (P : Event -> Prop) n f p :
  (forall target whl, P (PipInstall target whl)) ->
  emits P (install C n f p).
Proof.
  intros HP. unfold install. apply emits_bind.
  - simpl. intros w res w' H.
    destruct (pip_install C _ _ _) as [rc produced].
    exists [PipInstall n (Fs.name_of p)].
    destruct (rc =? 0); simplify_eq; (split; [done | by constructor]).
  - intros rc. emit.
Qed.





Lemma emits_after_fetch P source r n sha p :
  (forall target whl, P (PipInstall target whl)) ->
  emits P (check_sha256 p sha ;; validate C p ;;
           install C n (whl_filename_of source r) p).
Proof.
  intros HP. apply emits_bind; [apply emits_check_sha256 | intros _].
  apply emits_bind; [apply emits_validate | intros _].
  by apply emits_install.
Qed.

End Calls.


(* ===================================================================== *)
(** ** Names *)
(* ===================================================================== *)


(* ===================================================================== *)
(** ** Runs on concrete inputs *)
(* ===================================================================== *)

Module Runs.
Import Double.

(** The scenario of the design: adding from the sample URL, with no
    checksum, installs [sample-ext] in version 1.0.0. *)
Example add_from_url :
  let r := add_extension (collab no_index (serves wheel_1_0_0) (unpack 0))
             (Some sample_url) None None empty_world in
  outcome r = inr tt
  /\ version_of <$> extensions (after r) !! "sample-ext" = Some "1.0.0"
  /\ calls (after r)
     = [HttpGet sample_url;
        PipInstall "sample-ext" "sample_ext-1.0.0-py3-none-any.whl"].
Proof. vm_compute. repeat split. Qed.

(** An installer ended by signal 9 is taken for a success. *)
Example add_with_killed_installer :
  let r := add_extension (collab no_index (serves wheel_1_0_0) (unpack (-9)))
             (Some sample_url) None None empty_world in
  outcome r = inr tt /\ installed "sample-ext" (after r) = true.
Proof. vm_compute. repeat split. Qed.

(** A download that is no zip archive: the exception of the zip reader
    reaches the caller, and both temporary directories stay. *)
Example add_not_a_zip :
  let r := add_extension (collab no_index (serves not_a_zip) (unpack 0))
             (Some sample_url) None None empty_world in
  outcome r = inl (BadZipFile "File is not a zip file")
  /\ dom (temps (after r)) = {[0%nat; 1%nat]}
  /\ extensions (after r) = ∅.
Proof. vm_compute. repeat split. Qed.

(** An update whose installer fails puts the old version back. *)
Example update_rolled_back :
  let r := update_extension
             (collab (inr (update_url, None)) (serves wheel_1_1_0) (unpack 1))
             "sample-ext" None installed_world in
  outcome r = inl (Kind.UpdateFailed "sample-ext" "1.0.0")
  /\ version_of <$> extensions (after r) !! "sample-ext" = Some "1.0.0"
  /\ Fs.path_exists (backup_dir_of installed_world "sample-ext") (after r)
     = true.
Proof. vm_compute. repeat split. Qed.

Example update_done :
  let r := update_extension
             (collab (inr (update_url, None)) (serves wheel_1_1_0) (unpack 0))
             "sample-ext" None installed_world in
  outcome r = inr tt
  /\ version_of <$> extensions (after r) !! "sample-ext" = Some "1.1.0".
Proof. vm_compute. repeat split. Qed.



Lemma install_sees_positive_status_only_witness :
  outcome (install killed "sample-ext" whl_name (Local local_whl)
             (world_with wheel_1_0_0)) = inr tt
  /\ extensions (after (install killed "sample-ext" whl_name (Local local_whl)
                          (world_with wheel_1_0_0))) !! "sample-ext"
     = Some (<[whl_name := wheel_1_0_0]> (members "1.0.0")).
Proof.
  apply (install_sees_positive_status_only killed "sample-ext" whl_name
           (Local local_whl) (world_with wheel_1_0_0) wheel_1_0_0 (-9)
           (Some (members "1.0.0"))).
  - exact I.
  - reflexivity.
  - reflexivity.
  - lia.
  - reflexivity.
Defined.

Lemma digest_given : digest_1_0_0 <> "".
Proof. discriminate. Defined.

Lemma digest_computed : Sha256.hexdigest wheel_1_0_0 = digest_1_0_0.
Proof. vm_compute. reflexivity. Defined.

Lemma flip_changes_digest :
  Sha256.hexdigest (flip_bit 0 wheel_1_0_0) <> Sha256.hexdigest wheel_1_0_0.
Proof. vm_compute. discriminate. Defined.

Lemma checksum_validation_witness :
  outcome (check_sha256 (Local local_whl) (Some digest_1_0_0)
             (world_with wheel_1_0_0)) = inr tt
  /\ check_sha256 (Local local_whl) (Some digest_1_0_0)
       (world_with (flip_bit 0 wheel_1_0_0))
     = (inl Kind.ChecksumMismatch, world_with (flip_bit 0 wheel_1_0_0)).
Proof.
  destruct (checksum_validation (Local local_whl) (world_with wheel_1_0_0)
              wheel_1_0_0 digest_1_0_0 eq_refl digest_given)
    as (_ & Hiff & _ & Hflip).
  split.
  - apply Hiff. vm_compute. reflexivity.
  - rewrite <- digest_computed.
    apply (Hflip 0%nat (world_with (flip_bit 0 wheel_1_0_0))).
    + reflexivity.
    + exact flip_changes_digest.
Defined.

Lemma extraction_directory_cleanup_witness :
  outcome (_validate_whl_extension bad_download (Local local_whl)
             (world_with not_a_zip))
  = inl (BadZipFile "File is not a zip file")
  /\ temps (after (_validate_whl_extension bad_download (Local local_whl)
                     (world_with not_a_zip)))
     !! fresh (dom (temps (world_with not_a_zip)))
     = Some empty_temp.
Proof.
  apply (proj1 (extraction_directory_cleanup bad_download (Local local_whl)
                  (world_with not_a_zip) not_a_zip eq_refl)).
  reflexivity.
Defined.

Lemma corrupt_archive_classification_witness :
  outcome (validate bad_download (Local local_whl) (world_with not_a_zip))
  = inl (BadZipFile "File is not a zip file")
  /\ outcome (validate bad_download (Local local_whl) (world_with not_a_zip))
     <> inl Kind.InvalidArtifact.
Proof.
  apply (proj1 (corrupt_archive_classification bad_download (Local local_whl)
                  (world_with not_a_zip) not_a_zip eq_refl)).
  reflexivity.
Defined.



Lemma update_without_candidate_witness :
  outcome (update_extension nothing_newer "sample-ext" None installed_world)
  = inl (Kind.NoUpdateAvailable "sample-ext")
  /\ extensions (after (update_extension nothing_newer "sample-ext" None
                          installed_world))
     = extensions installed_world
  /\ temps (after (update_extension nothing_newer "sample-ext" None
                     installed_world))
     = temps installed_world
  /\ files (after (update_extension nothing_newer "sample-ext" None
                     installed_world))
     = files installed_world.
Proof.
  apply (update_without_candidate nothing_newer "sample-ext" None
           installed_world sample_tree "No suitable extensions found.").
  - reflexivity.
  - reflexivity.
Defined.

Lemma add_installed_name_skips_index_witness :
  add_extension nothing_newer None (Some "sample-ext") None installed_world
  = (inl (Kind.AlreadyExists "sample-ext"), installed_world)
  /\ calls (after (add_extension nothing_newer None (Some "sample-ext") None
                     installed_world))
     = calls installed_world.
Proof.
  apply (add_installed_name_skips_index nothing_newer None "sample-ext" None
           installed_world).
  - discriminate.
  - vm_compute. reflexivity.
Defined.

End Runs.

(* ===================================================================== *)
(** ** Remove, and how it composes with add *)
(* ===================================================================== *)

Lemma bind_err {A B} (m : M A) (k : A -> M B) w e w1 :
  m w = (inl e, w1) -> bind m k w = (inl e, w1).
Proof. unfold bind. by intros ->. Qed.

Lemma remove_extension_run (n : string) (w : World) :
  remove_extension n w
  = match extensions w !! n with
    | Some _ => (inr tt, set_extensions (delete n) w)
    | None => (inl (Kind.NotInstalled n), w)
    end.
Proof.
  unfold remove_extension, try_except, bind, get_extension.
  destruct (extensions w !! n) as [t |] eqn:Hn; [| done].
  unfold Fs.rmtree. simpl. by rewrite Hn.
Qed.

(** [remove_extension] succeeds exactly on an installed name. It then
    removes the directory of that name and nothing else; on a name that is
    not installed it raises the not-installed error and changes nothing. *)
Theorem remove_extension_spec (n : string) (w : World) :
  (outcome (remove_extension n w) = inr tt <-> installed n w = true)
  /\ (installed n w = true ->
      installed n (after (remove_extension n w)) = false
      /\ (forall m, m <> n ->
            extensions (after (remove_extension n w)) !! m = extensions w !! m)
      /\ temps (after (remove_extension n w)) = temps w
      /\ files (after (remove_extension n w)) = files w
      /\ calls (after (remove_extension n w)) = calls w)
  /\ (installed n w = false ->
      remove_extension n w = (inl (Kind.NotInstalled n), w)).
Proof.
  rewrite remove_extension_run. unfold installed.
  destruct (extensions w !! n) as [t |] eqn:Hn; simpl.
  - split; [| split]; try done. intros _.
    rewrite lookup_delete_eq. repeat split; try done.
    intros m Hm. by rewrite lookup_delete_ne.
  - split; [| split]; try done.
Qed.

Section Compose.

Variable C : Collab.

Lemma add_whl_ext_taken source sha r n w :
  PyStr.endswith source ".whl" = true ->
  Url.urlparse source = inr r ->
  extension_name_of (whl_filename_of source r) = Some n ->
  is_Some (extensions w !! n) ->
  _add_whl_ext C (Some source) sha w = (inl (Kind.AlreadyExists n), w).
Proof.
  intros He Hu Hn Hw. unfold _add_whl_ext. rewrite He. simpl.
  unfold bind at 1, lift. rewrite Hu, Hn.
  rewrite (extension_name_truthy _ _ Hn). simpl.
  unfold bind, extension_exists, gets.
  by rewrite bool_decide_eq_true_2.
Qed.

Lemma add_whl_ext_success_name source sha w w' :
  _add_whl_ext C (Some source) sha w = (inr tt, w') ->
  exists r n data t,
    PyStr.endswith source ".whl" = true
    /\ Url.urlparse source = inr r
    /\ extension_name_of (whl_filename_of source r) = Some n
    /\ extensions w !! n = None
    /\ extensions w' = <[n := <[whl_filename_of source r := data]> t]> (extensions w).
Proof.
  intros H.
  destruct (add_whl_ext_cases C source sha w)
    as [(e' & He') | (r & n & He & Hu & Hn & Hw & _)]; [congruence |].
  apply add_whl_ext_success in H
    as (r' & n' & data & t & Hu' & Hn' & _ & E & _ & _).
  assert (r' = r) as -> by congruence.
  assert (n' = n) as -> by congruence.
  by exists r, n, data, t.
Qed.

End Compose.

(** Removing what a successful installation has installed gives back the
    store of before the installation: [remove_extension] undoes
    [_add_whl_ext] on the store. *)
Theorem add_then_remove (C : Collab) (source : string) (sha : option string)
    (w w' : World) :
  _add_whl_ext C (Some source) sha w = (inr tt, w') ->
  exists n,
    installed n w = false /\ installed n w' = true
    /\ outcome (remove_extension n w') = inr tt
    /\ extensions (after (remove_extension n w')) = extensions w.
Proof.
  intros H.
  apply add_whl_ext_success_name in H
    as (r & n & data & t & _ & _ & _ & Hw & E).
  exists n. rewrite remove_extension_run. unfold installed.
  rewrite E, Hw, lookup_insert_eq. simpl. rewrite E.
  repeat split. by apply delete_insert_id.
Qed.

(** A second installation from the same source, after a successful one,
    fails with AlreadyExists for the name installed by the first, whatever
    digest it is given, and changes nothing. *)
Theorem add_twice (C : Collab) (source : string) (sha sha' : option string)
    (w w' : World) :
  _add_whl_ext C (Some source) sha w = (inr tt, w') ->
  exists n,
    installed n w' = true
    /\ _add_whl_ext C (Some source) sha' w' = (inl (Kind.AlreadyExists n), w').
Proof.
  intros H.
  apply add_whl_ext_success_name in H
    as (r & n & data & t & He & Hu & Hn & Hw & E).
  exists n. split.
  - unfold installed. rewrite E, lookup_insert_eq. done.
  - apply (add_whl_ext_taken C source sha' r n w' He Hu Hn).
    rewrite E, lookup_insert_eq. by eexists.
Qed.

(* ===================================================================== *)
(** ** More on update *)
(* ===================================================================== *)

(** [update_extension] on a name that is not installed raises the
    not-installed error at once: nothing is changed and the index is not
    asked. *)
Theorem update_not_installed (C : Collab) (n : string) (idx : option string)
    (w : World) :
  installed n w = false ->
  update_extension C n idx w = (inl (Kind.NotInstalled n), w).
Proof.
  unfold installed. intros Hn.
  unfold update_extension, try_except at 1, bind at 1, get_extension.
  destruct (extensions w !! n) as [t |]; [| done].
  by rewrite bool_decide_eq_true_2 in Hn.
Qed.

Section Rollback.

Variable C : Collab.


End Rollback.


(* ===================================================================== *)
(** ** Download *)
(* ===================================================================== *)

Section Download.

Variable C : Collab.

Lemma fetch_url_run r f w :
  fetch_url C r f w
  = let hint e := match e with
                  | ConnectionError _ | HTTPError _ =>
                      Kind.DownloadFailed (str_exn e)
                  | _ => e
                  end in
    match requests_get C (Url.geturl r) with
    | inl (Refused e) => (inl (hint e), downloaded r ∅ w)
    | inl (Interrupted rsp e) =>
        if status_code rsp =? 200
        then (inl (hint e), downloaded r {[f := content rsp]} w)
        else (inl (Kind.RequestFailed (Url.geturl r) (status_code rsp)),
              downloaded r ∅ w)
    | inr rsp =>
        if status_code rsp =? 200
        then (inr (TmpSub (fresh (dom (temps w))) f),
              downloaded r {[f := content rsp]} w)
        else (inl (Kind.RequestFailed (Url.geturl r) (status_code rsp)),
              downloaded r ∅ w)
    end.
Proof.
  unfold fetch_url. rewrite (bind_ok _ _ _ _ _ (mkdtemp_run w)). simpl.
  unfold bind at 1, try_except. rewrite download_run. simpl.
  destruct (requests_get C (Url.geturl r)) as [[e | rsp e] | rsp].
  - destruct e; reflexivity.
  - destruct (status_code rsp =? 200); simpl; [| reflexivity].
    unfold bind, Fs.write, Fs.put_file. simpl. rewrite lookup_insert_eq. simpl.
    unfold downloaded, raise, set_temps, log. simpl.
    rewrite insert_insert_eq, insert_empty. by destruct e.
  - destruct (status_code rsp =? 200); simpl; [| reflexivity].
    unfold Fs.write, Fs.put_file. simpl. rewrite lookup_insert_eq. simpl.
    unfold downloaded, ret, set_temps, log. simpl.
    by rewrite insert_insert_eq, insert_empty.
Qed.

End Download.

(** A download fails in three ways, and what it leaves depends on when.
    A status other than 200, the other 2xx included, is the error
    [Request to URL failed with STATUS], not the network hint; it is raised
    before the file is opened, whether the body would have come whole or
    not. A [ConnectionError] or [HTTPError] of the transport becomes the
    network hint with its detail, and any other exception of the transport
    reaches the caller as it is. When [requests.get] itself raises, no file
    has been made, as for a bad status: the temporary directory made for
    the download stays, empty. When the exception is raised while the body
    is read, after a status of 200, the file has been opened by then: it
    stays in the temporary directory, with the part of the body that had
    come. *)
Theorem download_failures (C : Collab) (r : Url.ParseResult) (f : string)
    (w : World) :
  let d := fresh (dom (temps w)) in
  let answer := requests_get C (Url.geturl r) in
  (forall rsp,
     answer = inr rsp \/ (exists e, answer = inl (Interrupted rsp e)) ->
     status_code rsp <> 200 ->
     outcome (fetch_url C r f w)
     = inl (Kind.RequestFailed (Url.geturl r) (status_code rsp))
     /\ temps (after (fetch_url C r f w)) !! d = Some empty_temp)
  /\ (forall detail,
        answer = inl (Refused (ConnectionError detail))
        \/ answer = inl (Refused (HTTPError detail)) ->
        outcome (fetch_url C r f w) = inl (Kind.DownloadFailed detail)
        /\ temps (after (fetch_url C r f w)) !! d = Some empty_temp)
  /\ (forall e,
        answer = inl (Refused e) ->
        (forall detail, e <> ConnectionError detail /\ e <> HTTPError detail) ->
        outcome (fetch_url C r f w) = inl e
        /\ temps (after (fetch_url C r f w)) !! d = Some empty_temp)
  /\ (forall rsp e,
        answer = inl (Interrupted rsp e) ->
        status_code rsp = 200 ->
        temps (after (fetch_url C r f w)) !! d
        = Some {| tmp_files := {[f := content rsp]}; tmp_dirs := ∅ |}
        /\ (forall detail,
              e = ConnectionError detail \/ e = HTTPError detail ->
              outcome (fetch_url C r f w) = inl (Kind.DownloadFailed detail))
        /\ ((forall detail,
               e <> ConnectionError detail /\ e <> HTTPError detail) ->
            outcome (fetch_url C r f w) = inl e)).
Proof.
  intros d answer. subst answer. rewrite fetch_url_run.
  split; [| split; [| split]].
  - intros rsp [-> | [e ->]] Hs;
      (destruct (Z.eqb_spec (status_code rsp) 200); [done |]);
      simpl; (split; [done | apply lookup_insert_eq]).
  - intros detail [-> | ->]; simpl; (split; [done | apply lookup_insert_eq]).
  - intros e -> He. simpl. split; [| apply lookup_insert_eq].
    destruct e; try done.
    + by destruct (He detail) as [? _].
    + by destruct (He detail) as [_ ?].
  - intros rsp e -> ->. simpl. split; [apply lookup_insert_eq |]. split.
    + by intros detail [-> | ->].
    + intros He. destruct e; try done.
      * by destruct (He detail) as [? _].
      * by destruct (He detail) as [_ ?].
Qed.

(** A download that succeeds (status 200) makes one new temporary
    directory that holds one file, named as the last segment of the URL
    path says and with the whole body as its content; the store and the
    other files are untouched. *)
Theorem download_success (C : Collab) (r : Url.ParseResult) (f : string)
    (w : World) (rsp : Response) :
  requests_get C (Url.geturl r) = inr rsp ->
  status_code rsp = 200 ->
  let d := fresh (dom (temps w)) in
  outcome (fetch_url C r f w) = inr (TmpSub d f)
  /\ temps w !! d = None
  /\ temps (after (fetch_url C r f w))
     = <[d := {| tmp_files := {[f := content rsp]}; tmp_dirs := ∅ |}]> (temps w)
  /\ Fs.read_file (TmpSub d f) (after (fetch_url C r f w)) = Some (content rsp)
  /\ extensions (after (fetch_url C r f w)) = extensions w
  /\ files (after (fetch_url C r f w)) = files w.
Proof.
  intros Hg Hs d. rewrite fetch_url_run, Hg, Hs. simpl.
  repeat split; [apply fresh_temp_none |].
  fold d. rewrite lookup_insert_eq. simpl. apply lookup_singleton_eq.
Qed.

(* ===================================================================== *)
(** ** What an installation leaves *)
(* ===================================================================== *)

Section Leaves.

Variable C : Collab.

Lemma install_temps n f p w res w' :
  install C n f p w = (res, w') -> temps w' = temps w /\ files w' = files w.
Proof.
  unfold install. intros H.
  apply bind_inv in H as [(rc & w1 & Hp & H) | (e & Hp & _)].
  - simpl in Hp. destruct (pip_install C _ _ _) as [code produced].
    assert (temps w1 = temps w /\ files w1 = files w) as [T1 F1].
    { destruct (code =? 0); by simplify_eq. }
    rewrite <- T1, <- F1. clear Hp T1 F1.
    destruct (rc >? 0).
    + apply bind_inv in H as [(a & w2 & Hr & H) | (e & Hr & _)].
      * unfold raise in H. simplify_eq. unfold Fs.rmtree in Hr. simpl in Hr.
        destruct (extensions w1 !! n); by simplify_eq.
      * unfold Fs.rmtree in Hr. simpl in Hr.
        destruct (extensions w1 !! n); by simplify_eq.
    + unfold Fs.copyfile in H. destruct (Fs.read_file p w1); [| by simplify_eq].
      simpl in H. destruct (extensions w1 !! n); by simplify_eq.
  - simpl in Hp. destruct (pip_install C _ _ _) as [code produced].
    destruct (code =? 0); by simplify_eq.
Qed.

(** The stages after the fetch keep every temporary directory that was
    there, whatever their outcome. *)
Lemma after_fetch_temps_kept source r n sha p w res w' :
  (check_sha256 p sha ;; validate C p ;;
   install C n (whl_filename_of source r) p) w = (res, w') ->
  temps_kept w w'.
Proof.
  intros H.
  apply bind_inv in H as [([] & w2 & Hc & H) | (e & Hc & ->)].
  2: { apply check_sha256_same in Hc as ->. by intros d td Hd. }
  apply check_sha256_same in Hc as ->.
  apply bind_inv in H as [([] & w3 & Hv & H) | (e & Hv & ->)].
  2: { by destruct (validate_quiet _ _ _ _ _ Hv). }
  destruct (validate_quiet _ _ _ _ _ Hv) as [_ T _].
  apply install_temps in H as [E _]. intros d td Hd. rewrite E. by apply T.
Qed.

(** A successful run of the pipeline, stage by stage. *)
Lemma pipeline_success source r n sha w w' :
  pipeline C source r n sha w = (inr tt, w') ->
  exists p w1 data t,
    (if is_url r then fetch_url C r (whl_filename_of source r)
     else fetch_local C source) w = (inr p, w1)
    /\ Fs.read_file p w1 = Some data
    /\ check_sha256 p sha w1 = (inr tt, w1)
    /\ extensions w'
       = <[n := <[whl_filename_of source r := data]> t]> (extensions w)
    /\ files w' = files w
    /\ temps_kept w1 w'.
Proof.
  unfold pipeline. intros H.
  apply bind_inv in H as [(p & w1 & Hf & H) | (e & _ & ?)]; [| done].
  pose proof (fetch_path _ _ _ _ _ _ Hf) as [Hp [data Hd]].
  pose proof (fetch_quiet _ _ _ _ _ _ Hf) as [E1 T1 F1].
  pose proof (after_fetch_temps_kept _ _ _ _ _ _ _ _ H) as Hk.
  apply bind_inv in H as [([] & w2 & Hc & H) | (e & _ & ?)]; [| done].
  pose proof (check_sha256_same _ _ _ _ _ Hc) as ->.
  apply bind_inv in H as [([] & w3 & Hv & H) | (e & _ & ?)]; [| done].
  pose proof (validate_quiet _ _ _ _ _ Hv) as Hq.
  pose proof (quiet_read_file _ _ _ _ Hq Hp Hd) as Hd3.
  eapply install_success in H as (t & _ & _ & E & T & F); [| done | done].
  destruct Hq as [E2 T2 F2].
  exists p, w1, data, t. repeat split; try done; congruence.
Qed.

End Leaves.

(** The directory made for a download is never removed: once the body has
    been written, it is still there, with the downloaded file, when
    [_add_whl_ext] returns, whether the installation succeeded or failed
    later. *)
Theorem download_directory_stays (C : Collab) (source : string)
    (r : Url.ParseResult) (n : string) (sha : option string) (w : World)
    (rsp : Response) :
  PyStr.endswith source ".whl" = true ->
  Url.urlparse source = inr r ->
  is_url r = true ->
  extension_name_of (whl_filename_of source r) = Some n ->
  extensions w !! n = None ->
  requests_get C (Url.geturl r) = inr rsp ->
  status_code rsp = 200 ->
  temps (after (_add_whl_ext C (Some source) sha w)) !! fresh (dom (temps w))
  = Some {| tmp_files := {[whl_filename_of source r := content rsp]};
            tmp_dirs := ∅ |}.
Proof.
  intros He Hu Hi Hn Hw Hg Hs.
  rewrite (add_whl_ext_resolved C source sha r n w He Hu Hn Hw).
  unfold pipeline. rewrite Hi.
  assert (fetch_url C r (whl_filename_of source r) w
          = (inr (TmpSub (fresh (dom (temps w))) (whl_filename_of source r)),
             downloaded r {[whl_filename_of source r := content rsp]} w)) as Hf.
  { by rewrite fetch_url_run, Hg, Hs. }
  rewrite (bind_ok _ _ _ _ _ Hf).
  destruct (bind _ _ (downloaded _ _ w)) as [res w'] eqn:H. simpl.
  apply after_fetch_temps_kept in H. apply H. simpl. apply lookup_insert_eq.
Qed.

(** A successful installation from a local file puts into the installed
    directory a copy of that file, under its base name and byte for byte;
    the file itself and all other files are untouched. *)
Theorem local_wheel_kept (C : Collab) (source : string)
    (r : Url.ParseResult) (sha : option string) (w w' : World) :
  Url.urlparse source = inr r ->
  is_url r = false ->
  _add_whl_ext C (Some source) sha w = (inr tt, w') ->
  exists n data,
    extension_name_of (PyStr.basename source) = Some n
    /\ files w !! realpath C source = Some data
    /\ extensions w' !! n ≫= (fun t => t !! PyStr.basename source) = Some data
    /\ files w' = files w.
Proof.
  intros Hu Hi H.
  destruct (add_whl_ext_cases C source sha w)
    as [(e' & He') | (r' & n & He & Hu' & Hn & Hw & Hp)]; [congruence |].
  assert (r' = r) as -> by congruence.
  rewrite Hp in H. apply pipeline_success in H
    as (p & w1 & data & t & Hf & Hd & _ & E & F & _).
  rewrite Hi in Hf. rewrite fetch_local_run in Hf.
  unfold whl_filename_of in *. rewrite Hi in *.
  destruct (files w !! realpath C source) as [c |] eqn:Hc; simplify_eq.
  simpl in Hd. exists n, data. repeat split; try done; [congruence |].
  rewrite E, lookup_insert_eq. simpl. apply lookup_insert_eq.
Qed.

(* ===================================================================== *)
(** ** Integrity before installation *)
(* ===================================================================== *)

Lemma add_by_name_run (C : Collab) source name idx w url sha :
  name <> "" ->
  extensions w !! name = None ->
  resolve_from_index C name None idx = inr (url, sha) ->
  add_extension C source (Some name) idx w
  = _add_whl_ext C (Some url) sha (log (IndexQuery name None idx) w).
Proof.
  intros Hne Hw Hr. unfold add_extension.
  assert (PyStr.truthy_opt (Some name) = true) as -> by (by destruct name).
  change (default "" (Some name)) with name.
  unfold bind at 1, extension_exists, gets. rewrite Hw.
  rewrite bool_decide_eq_false_2 by (by intros [? ?]).
  unfold bind at 1, try_except, bind at 1, modify, lift.
  by rewrite Hr.
Qed.

(** When the digest that the index gives for its candidate is not the
    digest of what was downloaded, [add_extension] by name fails with
    ChecksumMismatch right after the download: the archive is never
    opened, the installer is never called, the store is unchanged. All
    that is left is the record of the index query and of the request, and
    the download in its temporary directory. *)
Theorem index_digest_mismatch (C : Collab) (source : option string)
    (name : string) (idx : option string) (w : World) (url d : string)
    (r : Url.ParseResult) (n : string) (rsp : Response) :
  name <> "" ->
  extensions w !! name = None ->
  resolve_from_index C name None idx = inr (url, Some d) ->
  d <> "" ->
  PyStr.endswith url ".whl" = true ->
  Url.urlparse url = inr r ->
  is_url r = true ->
  extension_name_of (whl_filename_of url r) = Some n ->
  extensions w !! n = None ->
  requests_get C (Url.geturl r) = inr rsp ->
  status_code rsp = 200 ->
  Sha256.hexdigest (content rsp) <> d ->
  add_extension C source (Some name) idx w
  = (inl Kind.ChecksumMismatch,
     downloaded r {[whl_filename_of url r := content rsp]}
       (log (IndexQuery name None idx) w)).
Proof.
  intros Hne Hw0 Hr Hd He Hu Hi Hn Hw Hg Hs Hx.
  rewrite (add_by_name_run C source name idx w url (Some d) Hne Hw0 Hr).
  set (w1 := log _ w).
  rewrite (add_whl_ext_resolved C url (Some d) r n w1 He Hu Hn Hw).
  unfold pipeline. rewrite Hi.
  assert (fetch_url C r (whl_filename_of url r) w1
          = (inr (TmpSub (fresh (dom (temps w1))) (whl_filename_of url r)),
             downloaded r {[whl_filename_of url r := content rsp]} w1)) as Hf.
  { by rewrite fetch_url_run, Hg, Hs. }
  rewrite (bind_ok _ _ _ _ _ Hf).
  apply bind_err.
  rewrite (check_sha256_run _ d _ (content rsp)).
  - destruct (String.eqb_spec d (Sha256.hexdigest (content rsp))); by subst.
  - simpl. rewrite lookup_insert_eq. simpl. apply lookup_singleton_eq.
  - by destruct d.
Qed.

(** The same for a local file with a digest of its own: a mismatch fails
    with ChecksumMismatch and leaves the world exactly as it was. *)
Theorem local_digest_mismatch (C : Collab) (source : string)
    (r : Url.ParseResult) (n d : string) (data : Bytes) (w : World) :
  PyStr.endswith source ".whl" = true ->
  Url.urlparse source = inr r ->
  is_url r = false ->
  extension_name_of (whl_filename_of source r) = Some n ->
  extensions w !! n = None ->
  files w !! realpath C source = Some data ->
  d <> "" ->
  Sha256.hexdigest data <> d ->
  _add_whl_ext C (Some source) (Some d) w = (inl Kind.ChecksumMismatch, w).
Proof.
  intros He Hu Hi Hn Hw Hf Hd Hx.
  rewrite (add_whl_ext_resolved C source (Some d) r n w He Hu Hn Hw).
  unfold pipeline. rewrite Hi.
  assert (fetch_local C source w = (inr (Local (realpath C source)), w)) as Hl.
  { by rewrite fetch_local_run, Hf. }
  rewrite (bind_ok _ _ _ _ _ Hl). apply bind_err.
  rewrite (check_sha256_run _ d _ data); [| done | by destruct d].
  destruct (String.eqb_spec d (Sha256.hexdigest data)); by subst.
Qed.

(* ===================================================================== *)
(** ** Names and validation *)
(* ===================================================================== *)

Lemma replace_chars a b s :
  PyStr.chars (PyStr.replace a b s)
  = map (fun c => if PyStr.ascii_eqb c a then b else c) (PyStr.chars s).
Proof. unfold PyStr.replace. apply chars_text. Qed.

Lemma shortest_name_no_newline pre rest l :
  Forall (fun c => c <> Wheel.newline) pre ->
  Wheel.shortest_name pre rest = Some l ->
  Forall (fun c => c <> Wheel.newline) l.
Proof.
  revert pre. induction rest as [| c rest IH]; intros pre Hpre; simpl; [done |].
  destruct (PyStr.ascii_eqb c Wheel.newline) eqn:Hc; [done |].
  assert (c <> Wheel.newline) as Hne.
  { intros ->. unfold PyStr.ascii_eqb in Hc. by rewrite Ascii.eqb_refl in Hc. }
  destruct (Regex.matches _ _).
  - intros [= <-]. simpl. apply Forall_app. split; [| by repeat constructor].
    by apply Forall_rev.
  - apply IH. by constructor.
Qed.

(** Every name that [_add_whl_ext] reads off a file name is non-empty,
    contains no underscore and no newline, and is as long as the name
    part of the file name. *)
Theorem extension_name_shape (f n : string) :
  extension_name_of f = Some n ->
  n <> ""
  /\ Forall (fun c => c <> "_"%char /\ c <> Wheel.newline) (PyStr.chars n)
  /\ exists name, Wheel.WHEEL_INFO_RE f = Some name
                  /\ length (PyStr.chars n) = length (PyStr.chars name).
Proof.
  intros H. split; [| split].
  - apply extension_name_truthy in H. by destruct n.
  - revert H. unfold extension_name_of, Wheel.WHEEL_INFO_RE.
    destruct (Wheel.shortest_name _ _) as [l |] eqn:E; simpl; [| done].
    intros [= <-]. rewrite replace_chars, chars_text.
    apply (shortest_name_no_newline [] _ _ (Forall_nil_2 _)) in E.
    induction E as [| c l Hc _ IH]; simpl; constructor; [| done].
    unfold PyStr.ascii_eqb. destruct (Ascii.eqb_spec c "_"%char); by subst.
  - revert H. unfold extension_name_of.
    destruct (Wheel.WHEEL_INFO_RE f) as [name |]; [| done].
    intros [= <-]. exists name. split; [done |].
    by rewrite replace_chars, length_map.
Qed.

Section Validates.

Variable C : Collab.

Lemma validate_whl_cli_compat_run m w :
  (compatible C m = true -> _validate_whl_cli_compat C m w = (inr tt, w))
  /\ (compatible C m = false ->
      exists detail,
        _validate_whl_cli_compat C m w = (inl (Kind.IncompatibleVersion detail), w)).
Proof.
  unfold compatible, _validate_whl_cli_compat.
  destruct (ext_compat_with_cli C m) as [[[ok v] mn] mx]. simpl.
  split; intros ->; simpl; [done |]. by eexists.
Qed.

Lemma set_temps_id f w : f (temps w) = temps w -> set_temps f w = w.
Proof. destruct w. unfold set_temps. simpl. by intros ->. Qed.

End Validates.

(** The validation of an artifact passes exactly when the file is a zip
    archive, its metadata can be read and the version of the CLI is within
    the bounds it declares. When it passes, and also when it fails for an
    incompatible version, the world is exactly as before: nothing of the
    extraction is left. *)
Theorem validate_passes_iff (C : Collab) (p : path) (w : World)
    (data : Bytes) :
  Fs.read_file p w = Some data ->
  (outcome (validate C p w) = inr tt
   <-> exists members metadata,
         zip_members C data = Some members
         /\ get_azext_metadata C members = inr metadata
         /\ compatible C metadata = true)
  /\ (forall members metadata,
        zip_members C data = Some members ->
        get_azext_metadata C members = inr metadata ->
        after (validate C p w) = w
        /\ (compatible C metadata = false ->
            exists detail,
              outcome (validate C p w) = inl (Kind.IncompatibleVersion detail))).
Proof.
  intros Hr. unfold validate, try_except.
  rewrite validate_whl_extension_run. simpl.
  rewrite (read_file_new_temp _ _ _ Hr).
  assert (set_temps (delete (fresh (dom (temps w)))) w = w) as Hw.
  { apply set_temps_id, delete_id, fresh_temp_none. }
  rewrite Hw.
  destruct (zip_members C data) as [members |].
  2: { split; [| done]. split; [done | by intros (? & ? & ? & _)]. }
  destruct (get_azext_metadata C members) as [e | metadata] eqn:Hm.
  { split.
    - split; [by destruct e |].
      intros (? & ? & [= <-] & Hm' & _). congruence.
    - intros ? ? [= <-] Hm'. congruence. }
  destruct (validate_whl_cli_compat_run C metadata w) as [Hok Hbad].
  destruct (compatible C metadata) eqn:Hc.
  - rewrite (Hok eq_refl). split.
    + split; [by eauto 6 | done].
    + intros ? ? [= <-] Hm'. assert (metadata0 = metadata) as -> by congruence.
      split; [done | by rewrite Hc].
  - destruct (Hbad eq_refl) as [detail ->]. simpl. split.
    + split; [done |]. intros (? & m' & [= <-] & Hm' & Hc').
      assert (m' = metadata) as -> by congruence. congruence.
    + intros ? ? [= <-] Hm'. split; [done |]. intros _. by exists detail.
Qed.

(* ===================================================================== *)
(** ** The order of external calls *)
(* ===================================================================== *)

Section Order.

Variable C : Collab.

Lemma emits_fetch (P : Event -> Prop) source r :
  (forall url, P (HttpGet url)) ->
  emits P (if is_url r then fetch_url C r (whl_filename_of source r)
           else fetch_local C source).
Proof.
  intros HP. destruct (is_url r).
  - unfold fetch_url, _whl_download_from_url. emit.
  - unfold fetch_local, Fs.isfile. emit.
Qed.

Lemma emits_add_whl_ext (P : Event -> Prop) source sha :
  (forall url, P (HttpGet url)) ->
  (forall target whl, P (PipInstall target whl)) ->
  emits P (_add_whl_ext C source sha).
Proof.
  intros Hg Hp. destruct source as [source |]; [| apply emits_raise].
  intros w res w' H.
  destruct (add_whl_ext_cases C source sha w)
    as [(e' & He') | (r & n & _ & _ & _ & _ & Hpl)].
  { rewrite He' in H. simplify_eq. exists []. by rewrite app_nil_r. }
  rewrite Hpl in H. clear Hpl. revert w res w' H.
  change (emits P (pipeline C source r n sha)).
  unfold pipeline. apply emits_bind; [by apply emits_fetch |].
  intros p. by apply emits_after_fetch.
Qed.

(** the installation step makes exactly one call, to the installer *)
Lemma install_calls n f p w res w' :
  install C n f p w = (res, w') ->
  calls w' = (calls w ++ [PipInstall n (Fs.name_of p)])%list.
Proof.
  unfold install. intros H.
  apply bind_inv in H as [(rc & w1 & Hp & H) | (e & Hp & _)];
    rewrite run_pip_run in Hp; simplify_eq.
  assert (forall code, emits (fun _ => False)
            (if code >? 0
             then Fs.rmtree (get_extension_path n) true ;;
                  raise (Kind.InstallationFailed code)
             else Fs.copyfile p (Fs.join (get_extension_path n) f)))
    as He by (intros code; emit).
  apply He in H as (l & E & F). destruct l as [| x l]; [| by inversion F].
  rewrite E, app_nil_r. simpl in Hp. by simplify_eq.
Qed.

End Order.

(** An installation from a direct source never asks the index. *)
Theorem direct_source_skips_index (C : Collab) (source : string)
    (idx : option string) (w : World) :
  exists l,
    calls (after (add_extension C (Some source) None idx w))
    = (calls w ++ l)%list
    /\ Forall not_a_query l.
Proof.
  change (add_extension C (Some source) None idx w)
    with (_add_whl_ext C (Some source) None w).
  destruct (_add_whl_ext C (Some source) None w) as [res w'] eqn:H.
  by apply (emits_add_whl_ext C not_a_query) in H.
Qed.

(** In one run of [_add_whl_ext] the installer is called at most once, and
    then as the last external call: after the name has been found free,
    the artifact fetched, its checksum and its content validated. A run
    that stops earlier never calls it. *)
Theorem installer_called_last (C : Collab) (source : option string)
    (sha : option string) (w : World) :
  exists l,
    calls (after (_add_whl_ext C source sha w)) = (calls w ++ l)%list
    /\ (Forall not_pip l
        \/ exists l0 target whl,
             l = (l0 ++ [PipInstall target whl])%list
             /\ Forall not_pip l0
             /\ installed target w = false).
Proof.
  destruct source as [source |];
    [| exists []; split; [by rewrite app_nil_r | by left]].
  destruct (add_whl_ext_cases C source sha w)
    as [(e' & ->) | (r & n & _ & _ & _ & Hw & ->)].
  { exists []. split; [by rewrite app_nil_r | by left]. }
  destruct (pipeline C source r n sha w) as [res w'] eqn:H. simpl.
  unfold pipeline in H.
  apply bind_inv in H as [(p & w1 & Hf & H) | (e & Hf & ->)].
  2: { apply (emits_fetch C not_pip) in Hf as (l & E & F); [| done].
       exists l. split; [done | by left]. }
  apply (emits_fetch C not_pip) in Hf as (l1 & E1 & F1); [| done].
  apply bind_inv in H as [([] & w2 & Hc & H) | (e & Hc & ->)].
  2: { apply check_sha256_same in Hc as ->. exists l1. split; [done | by left]. }
  apply check_sha256_same in Hc as ->.
  apply bind_inv in H as [([] & w3 & Hv & H) | (e & Hv & ->)].
  2: { apply (emits_validate C not_pip) in Hv as (l2 & E2 & F2).
       exists (l1 ++ l2)%list. rewrite E2, E1, <- app_assoc.
       split; [done |]. left. by apply Forall_app. }
  apply (emits_validate C not_pip) in Hv as (l2 & E2 & F2).
  apply install_calls in H.
  exists ((l1 ++ l2) ++ [PipInstall n (Fs.name_of p)])%list.
  rewrite H, E2, E1, <- !app_assoc. split; [done |].
  right. exists (l1 ++ l2)%list, n, (Fs.name_of p).
  rewrite <- !app_assoc. split; [done |]. split; [by apply Forall_app |].
  unfold installed. rewrite Hw. done.
Qed.

(* ===================================================================== *)
(** ** Add by name, and the query of an update *)
(* ===================================================================== *)

(** [add_extension] by a name that is not installed asks the index once.
    Without a candidate it fails with NoCandidateFound; any other exception
    of the resolver reaches the caller as it is; in both cases only the
    query is on record. With a candidate it goes on with the source and
    the digest of the index, and the [source] it was given plays no part. *)
Theorem add_by_name (C : Collab) (source : option string) (name : string)
    (idx : option string) (w : World) :
  name <> "" ->
  extensions w !! name = None ->
  (forall m,
     resolve_from_index C name None idx = inl (NoExtensionCandidatesError m) ->
     add_extension C source (Some name) idx w
     = (inl (Kind.NoCandidateFound name), log (IndexQuery name None idx) w))
  /\ (forall e,
        resolve_from_index C name None idx = inl e ->
        (forall m, e <> NoExtensionCandidatesError m) ->
        add_extension C source (Some name) idx w
        = (inl e, log (IndexQuery name None idx) w))
  /\ (forall url sha,
        resolve_from_index C name None idx = inr (url, sha) ->
        add_extension C source (Some name) idx w
        = _add_whl_ext C (Some url) sha (log (IndexQuery name None idx) w)).
Proof.
  intros Hne Hw. split; [| split].
  - intros m Hr. unfold add_extension.
    assert (PyStr.truthy_opt (Some name) = true) as -> by (by destruct name).
    change (default "" (Some name)) with name.
    unfold bind at 1, extension_exists, gets. rewrite Hw.
    rewrite bool_decide_eq_false_2 by (by intros [? ?]).
    unfold bind at 1, try_except, bind at 1, modify, lift.
    by rewrite Hr.
  - intros e Hr He. unfold add_extension.
    assert (PyStr.truthy_opt (Some name) = true) as -> by (by destruct name).
    change (default "" (Some name)) with name.
    unfold bind at 1, extension_exists, gets. rewrite Hw.
    rewrite bool_decide_eq_false_2 by (by intros [? ?]).
    unfold bind at 1, try_except, bind at 1, modify, lift.
    rewrite Hr. destruct e; try done. by destruct (He msg).
  - intros url sha Hr. by apply add_by_name_run.
Qed.

Section Query.

Variable C : Collab.

Lemma put_dir_calls p t w w' : Fs.put_dir p t w = Some w' -> calls w' = calls w.
Proof. destruct p; simpl; try done; by intros; simplify_eq. Qed.

Lemma emits_copytree P p q : emits P (Fs.copytree p q).
Proof.
  apply emits_silent. intros w res w'. unfold Fs.copytree.
  destruct (Fs.read_dir p w); [| by intros; simplify_eq].
  destruct (Fs.path_exists q w); [by intros; simplify_eq |].
  destruct (Fs.put_dir q _ w) eqn:E; intros; simplify_eq; [| done].
  by eapply put_dir_calls.
Qed.

Lemma emits_swap n cur url sha w0 : emits any_call (swap C n cur url sha w0).
Proof.
  unfold swap. apply emits_try.
  - apply emits_bind; [by apply emits_add_whl_ext | intros _; apply emits_rmtree].
  - intros e hd [= <-]. apply emits_bind; [apply emits_copytree |].
    intros _. apply emits_raise.
Qed.

End Query.

(** The first external call of an update of an installed extension is the
    query of the index, for that name and with the version that is
    installed as the version to be newer than. *)
Theorem update_asks_for_newer (C : Collab) (n : string)
    (idx : option string) (w : World) (t : Tree) :
  extensions w !! n = Some t ->
  exists l,
    calls (after (update_extension C n idx w))
    = (calls w ++ IndexQuery n (Some (get_version C t)) idx :: l)%list.
Proof.
  intros Hn.
  destruct (resolve_from_index C n (Some (get_version C t)) idx)
    as [e | [url sha]] eqn:Hr.
  - destruct (update_extension_no_candidate C n idx w t e Hn Hr) as (e' & -> & _).
    by exists [].
  - rewrite (update_extension_candidate C n idx w t url sha Hn Hr).
    destruct (try_except _ _ _) as [res w'] eqn:H. simpl.
    assert (emits any_call
              (try_except (swap C n (get_version C t) url sha w)
                 (fun e => match e with
                           | ExtensionNotInstalledException _ =>
                               Some (raise (CLIError (str_exn e)))
                           | _ => None
                           end))) as He.
    { apply emits_try; [apply emits_swap |].
      intros e hd He. destruct e; simplify_eq; apply emits_raise. }
    apply He in H as (l & E & _). exists l. rewrite E. simpl.
    by rewrite <- app_assoc.
Qed.

(* ===================================================================== *)
(** ** Listing *)
(* ===================================================================== *)

Section Lists.

Variable C : Collab.
Variable ext_type : Tree -> string.
Variable metadata : Type.
Variable ext_metadata : Tree -> metadata.

Lemma list_extensions_run w :
  list_extensions C ext_type metadata w
  = (inr (map (fun ext =>
                 [(OUT_KEY_NAME, Str (fst ext));
                  (OUT_KEY_VERSION, Str (get_version C (snd ext)));
                  (OUT_KEY_TYPE, Str (ext_type (snd ext)))])
              (map_to_list (extensions w))), w).
Proof. reflexivity. Qed.

Lemma show_extension_run n w :
  show_extension C ext_type metadata ext_metadata n w
  = match extensions w !! n with
    | Some t =>
        (inr [(OUT_KEY_NAME, Str n);
              (OUT_KEY_VERSION, Str (get_version C t));
              (OUT_KEY_TYPE, Str (ext_type t));
              (OUT_KEY_METADATA, Meta (ext_metadata t))], w)
    | None => (inl (Kind.NotInstalled n), w)
    end.
Proof.
  unfold show_extension, try_except, bind, get_extension.
  by destruct (extensions w !! n).
Qed.

End Lists.

(** [list_extensions] changes nothing and lists the installed extensions
    and no others, each once: a name is installed exactly when one of the
    dictionaries has it under ["name"], and there are as many dictionaries
    as directories in the store. *)
Theorem list_extensions_complete (C : Collab) (ext_type : Tree -> string)
    (metadata : Type) (w : World) :
  exists l,
    list_extensions C ext_type metadata w = (inr l, w)
    /\ length l = size (extensions w)
    /\ NoDup (map (dict_get OUT_KEY_NAME) l)
    /\ forall n, installed n w = true
                 <-> In (Some (Str n)) (map (dict_get OUT_KEY_NAME) l).
Proof.
  eexists. split; [apply list_extensions_run |].
  rewrite map_map. simpl.
  assert (map (fun x : string * Tree => Some (@Str metadata x.1))
              (map_to_list (extensions w))
          = map (fun n => Some (Str n)) (map fst (map_to_list (extensions w))))
    as -> by (by rewrite map_map).
  split; [| split].
  - rewrite !length_map. apply length_map_to_list.
  - apply NoDup_fmap_2; [by intros ? ? [= ->] |].
    apply NoDup_fst_map_to_list.
  - intros n. unfold installed. rewrite in_map_iff. split.
    + intros H. apply bool_decide_eq_true_1 in H as [t Ht].
      exists n. split; [done |]. apply in_map_iff. exists (n, t).
      split; [done |]. apply list_elem_of_In. by apply elem_of_map_to_list.
    + intros (n' & [= ->] & H). apply in_map_iff in H as ([m t] & Hm & H).
      simpl in Hm. subst m. apply bool_decide_eq_true_2. exists t.
      apply elem_of_map_to_list. by apply list_elem_of_In.
Qed.

(** [show_extension] of an installed name changes nothing and gives its
    name, its version, its type and its metadata; the first three are the
    ones of one dictionary of [list_extensions]. Of a name that is not
    installed it raises the not-installed error. *)
Theorem show_agrees_with_list (C : Collab) (ext_type : Tree -> string)
    (metadata : Type) (ext_metadata : Tree -> metadata) (n : string)
    (w : World) :
  (forall t,
     extensions w !! n = Some t ->
     exists d l,
       show_extension C ext_type metadata ext_metadata n w = (inr d, w)
       /\ list_extensions C ext_type metadata w = (inr l, w)
       /\ dict_get OUT_KEY_NAME d = Some (Str n)
       /\ dict_get OUT_KEY_VERSION d = Some (Str (get_version C t))
       /\ dict_get OUT_KEY_METADATA d = Some (Meta (ext_metadata t))
       /\ In (take 3 d) l)
  /\ (extensions w !! n = None ->
      show_extension C ext_type metadata ext_metadata n w
      = (inl (Kind.NotInstalled n), w)).
Proof.
  rewrite show_extension_run. split.
  - intros t Ht. rewrite Ht. eexists. eexists.
    split; [done |]. split; [apply list_extensions_run |].
    repeat split. simpl. apply in_map_iff. exists (n, t). split; [done |].
    apply list_elem_of_In. by apply elem_of_map_to_list.
  - by intros ->.
Qed.

(* ===================================================================== *)
(** ** Further runs on concrete inputs *)
(* ===================================================================== *)

(* ===================================================================== *)
(** ** The outcome of an update *)
(* ===================================================================== *)

Section Outcome.

Variable C : Collab.





End Outcome.


Module UpdateRuns.
Import Double.


Example update_to_another_name :
  let r := update_extension renamed "sample-ext" None installed_world in
  outcome r = inr tt
  /\ installed "sample-ext" (after r) = false
  /\ installed "other-ext" (after r) = true
  /\ Fs.path_exists (backup_dir_of installed_world "sample-ext") (after r)
     = false.
Proof. vm_compute. repeat split. Qed.


End UpdateRuns.

Lemma run_eq {A} (r : (exn + A) * World) (o : exn + A) :
  outcome r = o -> r = (o, after r).
Proof. destruct r as [o' w']. simpl. by intros ->. Qed.

Module MoreRuns.
Import Double.

Lemma add_then_remove_witness :
  exists n,
    installed n empty_world = false /\ installed n after_add = true
    /\ outcome (remove_extension n after_add) = inr tt
    /\ extensions (after (remove_extension n after_add))
       = extensions empty_world.
Proof.
  apply (add_then_remove good sample_url None empty_world after_add).
  apply run_eq. vm_compute. reflexivity.
Defined.

Lemma add_twice_witness :
  exists n,
    installed n after_add = true
    /\ _add_whl_ext good (Some sample_url) (Some "deadbeef") after_add
       = (inl (Kind.AlreadyExists n), after_add).
Proof.
  apply (add_twice good sample_url None (Some "deadbeef") empty_world
           after_add).
  apply run_eq. vm_compute. reflexivity.
Defined.

Lemma update_not_installed_witness :
  update_extension good "sample-ext" None empty_world
  = (inl (Kind.NotInstalled "sample-ext"), empty_world).
Proof.
  apply (update_not_installed good "sample-ext" None empty_world).
  vm_compute. reflexivity.
Defined.


Lemma download_failures_witness :
  (outcome (fetch_url not_found sample_parse whl_name empty_world)
   = inl (Kind.RequestFailed sample_url 404)
   /\ temps (after (fetch_url not_found sample_parse whl_name empty_world))
      !! fresh (dom (temps empty_world)) = Some empty_temp)
  /\ temps (after (fetch_url reset sample_parse whl_name empty_world))
     !! fresh (dom (temps empty_world))
     = Some {| tmp_files := {[whl_name := wheel_without_module]};
               tmp_dirs := ∅ |}.
Proof.
  split.
  - apply (proj1 (download_failures not_found sample_parse whl_name
                    empty_world)
             {| status_code := 404; content := not_a_zip |}).
    + left. reflexivity.
    + discriminate.
  - apply (proj1 (proj2 (proj2 (proj2
             (download_failures reset sample_parse whl_name empty_world)))
             {| status_code := 200; content := wheel_without_module |}
             (ConnectionError "Connection reset by peer")
             eq_refl eq_refl)).
Defined.

Lemma download_success_witness :
  outcome (fetch_url good sample_parse whl_name empty_world)
  = inr (TmpSub (fresh (dom (temps empty_world))) whl_name)
  /\ temps empty_world !! fresh (dom (temps empty_world)) = None
  /\ temps (after (fetch_url good sample_parse whl_name empty_world))
     = <[fresh (dom (temps empty_world)) :=
           {| tmp_files := {[whl_name := wheel_1_0_0]}; tmp_dirs := ∅ |}]>
         (temps empty_world)
  /\ Fs.read_file (TmpSub (fresh (dom (temps empty_world))) whl_name)
       (after (fetch_url good sample_parse whl_name empty_world))
     = Some wheel_1_0_0
  /\ extensions (after (fetch_url good sample_parse whl_name empty_world))
     = extensions empty_world
  /\ files (after (fetch_url good sample_parse whl_name empty_world))
     = files empty_world.
Proof.
  apply (download_success good sample_parse whl_name empty_world
           {| status_code := 200; content := wheel_1_0_0 |}).
  - reflexivity.
  - reflexivity.
Defined.

Lemma download_directory_stays_witness :
  temps (after (_add_whl_ext bad_download (Some sample_url) None empty_world))
  !! fresh (dom (temps empty_world))
  = Some {| tmp_files := {[whl_filename_of sample_url sample_parse
                            := not_a_zip]};
            tmp_dirs := ∅ |}.
Proof.
  apply (download_directory_stays bad_download sample_url sample_parse
           "sample-ext" None empty_world
           {| status_code := 200; content := not_a_zip |}).
  - vm_compute. reflexivity.
  - vm_compute. reflexivity.
  - reflexivity.
  - vm_compute. reflexivity.
  - reflexivity.
  - reflexivity.
  - reflexivity.
Defined.

Lemma local_wheel_kept_witness :
  exists n data,
    extension_name_of (PyStr.basename local_whl) = Some n
    /\ files (world_with wheel_1_0_0) !! realpath good local_whl = Some data
    /\ extensions (after (_add_whl_ext good (Some local_whl) None
                            (world_with wheel_1_0_0))) !! n
       ≫= (fun t => t !! PyStr.basename local_whl) = Some data
    /\ files (after (_add_whl_ext good (Some local_whl) None
                       (world_with wheel_1_0_0)))
       = files (world_with wheel_1_0_0).
Proof.
  apply (local_wheel_kept good local_whl local_parse None
           (world_with wheel_1_0_0)).
  - vm_compute. reflexivity.
  - reflexivity.
  - apply run_eq. vm_compute. reflexivity.
Defined.

Lemma downloaded_digest_differs :
  Sha256.hexdigest wheel_1_0_0 <> "deadbeef".
Proof. vm_compute. discriminate. Defined.

Lemma index_digest_mismatch_witness :
  add_extension wrong_digest None (Some "sample-ext") None empty_world
  = (inl Kind.ChecksumMismatch,
     downloaded sample_parse
       {[whl_filename_of sample_url sample_parse := wheel_1_0_0]}
       (log (IndexQuery "sample-ext" None None) empty_world)).
Proof.
  apply (index_digest_mismatch wrong_digest None "sample-ext" None empty_world
           sample_url "deadbeef" sample_parse "sample-ext"
           {| status_code := 200; content := wheel_1_0_0 |}).
  - discriminate.
  - reflexivity.
  - reflexivity.
  - discriminate.
  - vm_compute. reflexivity.
  - vm_compute. reflexivity.
  - reflexivity.
  - vm_compute. reflexivity.
  - reflexivity.
  - reflexivity.
  - reflexivity.
  - exact downloaded_digest_differs.
Defined.

Lemma local_digest_mismatch_witness :
  _add_whl_ext good (Some local_whl) (Some "deadbeef") (world_with wheel_1_0_0)
  = (inl Kind.ChecksumMismatch, world_with wheel_1_0_0).
Proof.
  apply (local_digest_mismatch good local_whl local_parse "sample-ext"
           "deadbeef" wheel_1_0_0 (world_with wheel_1_0_0)).
  - vm_compute. reflexivity.
  - vm_compute. reflexivity.
  - reflexivity.
  - vm_compute. reflexivity.
  - reflexivity.
  - reflexivity.
  - discriminate.
  - exact downloaded_digest_differs.
Defined.

Lemma extension_name_shape_witness :
  "sample-ext" <> ""
  /\ Forall (fun c => c <> "_"%char /\ c <> Wheel.newline)
       (PyStr.chars "sample-ext")
  /\ exists name, Wheel.WHEEL_INFO_RE whl_name = Some name
                  /\ length (PyStr.chars "sample-ext")
                     = length (PyStr.chars name).
Proof.
  apply (extension_name_shape whl_name "sample-ext").
  vm_compute. reflexivity.
Defined.

Lemma validate_passes_iff_witness :
  outcome (validate good (Local local_whl) (world_with wheel_1_0_0)) = inr tt.
Proof.
  apply (proj1 (validate_passes_iff good (Local local_whl)
                  (world_with wheel_1_0_0) wheel_1_0_0 eq_refl)).
  exists (members "1.0.0"), tt. repeat split.
Defined.

Lemma add_by_name_witness :
  add_extension good None (Some "sample-ext") None empty_world
  = (inl (Kind.NoCandidateFound "sample-ext"),
     log (IndexQuery "sample-ext" None None) empty_world).
Proof.
  apply (proj1 (add_by_name good None "sample-ext" None empty_world
                  ltac:(discriminate) eq_refl)
           "No suitable extensions found.").
  reflexivity.
Defined.

Lemma update_asks_for_newer_witness :
  exists l,
    calls (after (update_extension failing_update "sample-ext" None
                    installed_world))
    = (calls installed_world
       ++ IndexQuery "sample-ext"
            (Some (get_version failing_update sample_tree)) None :: l)%list.
Proof.
  apply (update_asks_for_newer failing_update "sample-ext" None
           installed_world sample_tree).
  reflexivity.
Defined.

Lemma show_agrees_with_list_witness :
  show_extension good wheel_type unit no_metadata "sample-ext" empty_world
  = (inl (Kind.NotInstalled "sample-ext"), empty_world).
Proof.
  apply (proj2 (show_agrees_with_list good wheel_type unit no_metadata
                  "sample-ext" empty_world)).
  reflexivity.
Defined.

End MoreRuns.
